(** * The chunking benchmark notebook: the driver [run_benchmark] and its
      placeholder services, embedded from [benchmark.ipynb].

    The notebook's code cell defines two enumerations, six coroutines whose
    bodies are placeholders, and the driver [run_benchmark] that awaits them
    one after the other.  The driver is embedded once, over an arbitrary
    implementation of the six coroutines (a [Services] instance acting on a
    world state, each call either returning or raising), and the notebook's
    own placeholder bodies are the instance [notebook].

    Python floats are embedded as exact rationals ([Q]); rounding is not
    modelled.  [int] is [Z], [str] is [string], a [list] is a [list], and the
    [results] dict is an association list in insertion order. *)

From Stdlib Require Import String List ZArith QArith Lia Lqa DecimalString.
Import ListNotations.
Open Scope string_scope.
Open Scope list_scope.

(** ** Enumerations *)

Module ChunkingMethod.
Inductive t : Set := UNSTRUCTURED | AI21 | CUSTOM.

Definition value (m : t) : string :=
  match m with
  | UNSTRUCTURED => "unstructured"
  | AI21 => "ai21"
  | CUSTOM => "custom"
  end.
End ChunkingMethod.

Module VectorDB.
Inductive t : Set := PINECONE | ASTRA.

Definition value (db : t) : string :=
  match db with
  | PINECONE => "pinecone"
  | ASTRA => "astra"
  end.
End VectorDB.

(** ** Exceptions and outcomes

    No function of the notebook has a [try]; an exception raised by an
    awaited coroutine, or by the division in the aggregation line, unwinds
    through [run_benchmark]. *)

Inductive exn : Set :=
| ZeroDivisionError
| Exception (name : string).

Inductive outcome (A : Type) : Type :=
| Return (a : A)
| Raise (e : exn).
Arguments Return {A} a.
Arguments Raise {A} e.

(** ** The [results] dict: [results[k] = v] keeps the position of a key that
       is already present and appends a new key. *)

Definition dict : Type := list (string * Q).

Fixpoint dict_set (results : dict) (k : string) (v : Q) : dict :=
  match results with
  | [] => [(k, v)]
  | (k', v') :: rest =>
      if String.eqb k' k then (k, v) :: rest else (k', v') :: dict_set rest k v
  end.

Fixpoint dict_get (results : dict) (k : string) : option Q :=
  match results with
  | [] => None
  | (k', v') :: rest => if String.eqb k' k then Some v' else dict_get rest k
  end.

(** ** The aggregation line [sum(method_scores) / len(method_scores)].

    [sum] adds from the left starting at 0; dividing by a zero [len] raises
    [ZeroDivisionError].  Scores are floats within range, as
    [evaluate_answer] is annotated: the [OverflowError] of an [int] sum too
    large for a float is not modelled. *)

Definition sum (method_scores : list Q) : Q := fold_left Qplus method_scores 0%Q.

Definition len {A : Type} (l : list A) : Z := Z.of_nat (length l).

Definition true_div (x : Q) (n : Z) : outcome Q :=
  if Z.eqb n 0 then Raise ZeroDivisionError else Return (x / inject_Z n)%Q.

Definition mean_score (method_scores : list Q) : outcome Q :=
  true_div (sum method_scores) (len method_scores).

(** ** Services and the trace of awaited calls *)

Inductive event : Type :=
| EvChunkText (text : string) (method : ChunkingMethod.t)
              (r : outcome (list string))
| EvSaveChunks (chunks : list string) (db : VectorDB.t) (r : outcome unit)
| EvGenerateQuestions (text : string) (num_questions : Z)
                      (r : outcome (list string))
| EvRetrieve (question : string) (db : VectorDB.t) (top_k : Z)
             (r : outcome (list string))
| EvGenerateAnswer (question : string) (context : list string)
                   (r : outcome string)
| EvEvaluateAnswer (generated_answer correct_answer : string) (r : outcome Q).

Definition trace : Type := list event.

(** A coroutine acts on the world (standard output, the vector store, the
    language model) and returns or raises. *)
Definition coroutine (W A : Type) : Type := W -> outcome A * W.

Class Services (W : Type) : Type := {
  chunk_text : string -> ChunkingMethod.t -> coroutine W (list string);
  save_chunks_to_vector_db : list string -> VectorDB.t -> coroutine W unit;
  generate_questions : string -> Z -> coroutine W (list string);
  retrieve_relevant_chunks : string -> VectorDB.t -> Z -> coroutine W (list string);
  generate_answer : string -> list string -> coroutine W string;
  evaluate_answer : string -> string -> coroutine W Q
}.

(** The driver's monad: world passing, exceptions, and the trace of the
    calls it awaited, oldest first. *)
Definition task (W A : Type) : Type := W -> outcome A * W * trace.

Definition ret {W A : Type} (a : A) : task W A := fun w => (Return a, w, []).

Definition bind {W A B : Type} (m : task W A) (f : A -> task W B) : task W B :=
  fun w =>
    match m w with
    | (Return a, w1, t1) =>
        match f a w1 with
        | (r, w2, t2) => (r, w2, t1 ++ t2)
        end
    | (Raise e, w1, t1) => (Raise e, w1, t1)
    end.

Definition await {W A : Type} (c : coroutine W A) (ev : outcome A -> event)
  : task W A :=
  fun w => match c w with (r, w1) => (r, w1, [ev r]) end.

Definition lift {W A : Type} (r : outcome A) : task W A := fun w => (r, w, []).

Declare Scope task_scope.
Delimit Scope task_scope with task.
Notation "x <- m ;; k" := (bind m (fun x => k))
  (at level 100, m at next level, right associativity) : task_scope.
Notation "m ;;; k" := (bind m (fun _ => k))
  (at level 100, right associativity) : task_scope.
Open Scope task_scope.

(** ** The driver *)

Section Driver.
Context {W : Type} {S : Services W}.

(** The default of [retrieve_relevant_chunks]' third parameter. *)
Definition default_top_k : Z := 3.

(** First loop of [run_benchmark]: chunk under each method and save. *)
Fixpoint chunk_and_save (text : string) (chunking_methods : list ChunkingMethod.t)
  (vector_db : VectorDB.t) : task W unit :=
  match chunking_methods with
  | [] => ret tt
  | method :: rest =>
      chunks <- await (chunk_text text method) (EvChunkText text method) ;;
      await (save_chunks_to_vector_db chunks vector_db)
            (EvSaveChunks chunks vector_db) ;;;
      chunk_and_save text rest vector_db
  end.

(** The inner loop over [questions], appending to [method_scores]. *)
Fixpoint evaluate_questions (questions : list string) (vector_db : VectorDB.t)
  (method_scores : list Q) : task W (list Q) :=
  match questions with
  | [] => ret method_scores
  | question :: rest =>
      relevant_chunks <-
        await (retrieve_relevant_chunks question vector_db default_top_k)
              (EvRetrieve question vector_db default_top_k) ;;
      answer <- await (generate_answer question relevant_chunks)
                      (EvGenerateAnswer question relevant_chunks) ;;
      score <- await (evaluate_answer answer "correct_answer")
                     (EvEvaluateAnswer answer "correct_answer") ;;
      evaluate_questions rest vector_db (method_scores ++ [score])
  end.

(** The second loop over the methods, filling [results]. *)
Fixpoint evaluate_methods (chunking_methods : list ChunkingMethod.t)
  (questions : list string) (vector_db : VectorDB.t) (results : dict)
  : task W dict :=
  match chunking_methods with
  | [] => ret results
  | method :: rest =>
      method_scores <- evaluate_questions questions vector_db [] ;;
      average <- lift (mean_score method_scores) ;;
      evaluate_methods rest questions vector_db
        (dict_set results (ChunkingMethod.value method) average)
  end.

Definition run_benchmark (text : string)
  (chunking_methods : list ChunkingMethod.t) (vector_db : VectorDB.t)
  : task W dict :=
  chunk_and_save text chunking_methods vector_db ;;;
  questions <- await (generate_questions text 10) (EvGenerateQuestions text 10) ;;
  evaluate_methods chunking_methods questions vector_db [].

End Driver.

(** ** The notebook's placeholder bodies.  The world is standard output. *)

Definition print (line : string) : coroutine (list string) unit :=
  fun stdout => (Return tt, stdout ++ [line]).

Definition str_of_nat (n : nat) : string := NilZero.string_of_uint (Nat.to_uint n).

#[export] Instance notebook : Services (list string) := {
  chunk_text text method :=
    fun w => (Return ["chunk1"; "chunk2"; "chunk3"], w);
  save_chunks_to_vector_db chunks db :=
    print ("Saving " ++ str_of_nat (length chunks) ++ " chunks to "
           ++ VectorDB.value db)%string;
  generate_questions text num_questions :=
    fun w => (Return ["Question 1?"; "Question 2?"; "Question 3?"], w);
  retrieve_relevant_chunks question db top_k :=
    fun w => (Return ["relevant chunk 1"; "relevant chunk 2"], w);
  generate_answer question context :=
    fun w => (Return "Generated answer based on context", w);
  evaluate_answer generated_answer correct_answer :=
    fun w => (Return (85 # 100), w)
}.

(** ** Scripted services, for runs in which a service replies otherwise than
       the placeholder does: each of the four remote services replays the
       next reply of its script and falls back to the notebook's placeholder
       value once its script is used up; chunking and saving are the
       notebook's. *)

Record script : Type := {
  stdout : list string;
  question_replies : list (outcome (list string));
  retrieval_replies : list (outcome (list string));
  answer_replies : list (outcome string);
  grading_replies : list (outcome Q)
}.

Definition scripted_generate_questions : coroutine script (list string) :=
  fun w =>
    match question_replies w with
    | [] => (Return ["Question 1?"; "Question 2?"; "Question 3?"], w)
    | r :: rest =>
        (r, {| stdout := stdout w; question_replies := rest;
               retrieval_replies := retrieval_replies w;
               answer_replies := answer_replies w;
               grading_replies := grading_replies w |})
    end.

Definition scripted_retrieve : coroutine script (list string) :=
  fun w =>
    match retrieval_replies w with
    | [] => (Return ["relevant chunk 1"; "relevant chunk 2"], w)
    | r :: rest =>
        (r, {| stdout := stdout w; question_replies := question_replies w;
               retrieval_replies := rest;
               answer_replies := answer_replies w;
               grading_replies := grading_replies w |})
    end.

Definition scripted_answer : coroutine script string :=
  fun w =>
    match answer_replies w with
    | [] => (Return "Generated answer based on context", w)
    | r :: rest =>
        (r, {| stdout := stdout w; question_replies := question_replies w;
               retrieval_replies := retrieval_replies w;
               answer_replies := rest;
               grading_replies := grading_replies w |})
    end.

Definition scripted_grade : coroutine script Q :=
  fun w =>
    match grading_replies w with
    | [] => (Return (85 # 100), w)
    | r :: rest =>
        (r, {| stdout := stdout w; question_replies := question_replies w;
               retrieval_replies := retrieval_replies w;
               answer_replies := answer_replies w;
               grading_replies := rest |})
    end.

Definition scripted_print (line : string) : coroutine script unit :=
  fun w =>
    (Return tt,
     {| stdout := stdout w ++ [line]; question_replies := question_replies w;
        retrieval_replies := retrieval_replies w;
        answer_replies := answer_replies w;
        grading_replies := grading_replies w |}).

Definition scripted : Services script := {|
  chunk_text text method :=
    fun w => (Return ["chunk1"; "chunk2"; "chunk3"], w);
  save_chunks_to_vector_db chunks db :=
    scripted_print ("Saving " ++ str_of_nat (length chunks) ++ " chunks to "
                    ++ VectorDB.value db)%string;
  generate_questions text num_questions := scripted_generate_questions;
  retrieve_relevant_chunks question db top_k := scripted_retrieve;
  generate_answer question context := scripted_answer;
  evaluate_answer generated_answer correct_answer := scripted_grade
|}.

(** A script in which only the grader's replies are fixed. *)
Definition graded (grades : list (outcome Q)) : script :=
  {| stdout := []; question_replies := []; retrieval_replies := [];
     answer_replies := []; grading_replies := grades |}.

(** ** Observations on a trace *)

Definition exn_of {A : Type} (r : outcome A) : option exn :=
  match r with
  | Return _ => None
  | Raise e => Some e
  end.

Definition raised (ev : event) : option exn :=
  match ev with
  | EvChunkText _ _ r => exn_of r
  | EvSaveChunks _ _ r => exn_of r
  | EvGenerateQuestions _ _ r => exn_of r
  | EvRetrieve _ _ _ r => exn_of r
  | EvGenerateAnswer _ _ r => exn_of r
  | EvEvaluateAnswer _ _ r => exn_of r
  end.

(** Calls to the question generator, with their replies. *)
Definition questions_generated (tr : trace) : list (outcome (list string)) :=
  flat_map (fun ev => match ev with
                      | EvGenerateQuestions _ _ r => [r]
                      | _ => []
                      end) tr.

(** The questions sent to retrieval, in order. *)
Definition questions_asked (tr : trace) : list string :=
  flat_map (fun ev => match ev with
                      | EvRetrieve question _ _ _ => [question]
                      | _ => []
                      end) tr.

(** The scores the grader returned, in order. *)
Definition scores_of (tr : trace) : list Q :=
  flat_map (fun ev => match ev with
                      | EvEvaluateAnswer _ _ (Return score) => [score]
                      | _ => []
                      end) tr.

(** The vector databases written to and queried, and the chunk lists saved. *)
Definition indexes_written (tr : trace) : list VectorDB.t :=
  flat_map (fun ev => match ev with
                      | EvSaveChunks _ db _ => [db]
                      | _ => []
                      end) tr.

Definition indexes_queried (tr : trace) : list VectorDB.t :=
  flat_map (fun ev => match ev with
                      | EvRetrieve _ db _ _ => [db]
                      | _ => []
                      end) tr.

Definition chunk_sets_saved (tr : trace) : list (list string) :=
  flat_map (fun ev => match ev with
                      | EvSaveChunks chunks _ _ => [chunks]
                      | _ => []
                      end) tr.

(** The chunks retrieval returned. *)
Definition chunks_retrieved (tr : trace) : list string :=
  flat_map (fun ev => match ev with
                      | EvRetrieve _ _ _ (Return chunks) => chunks
                      | _ => []
                      end) tr.

(** Events of the chunking phase and of the evaluation phase. *)
Definition chunking_event (ev : event) : bool :=
  match ev with
  | EvChunkText _ _ _ | EvSaveChunks _ _ _ => true
  | _ => false
  end.

Definition evaluation_event (ev : event) : bool :=
  match ev with
  | EvRetrieve _ _ _ _ | EvGenerateAnswer _ _ _ | EvEvaluateAnswer _ _ _ => true
  | _ => false
  end.

(** ** The spec's aggregate and output row, written from its words, for
       comparison with the code's. *)

(** [accuracy = count(score >= threshold) / count(attempted)]. *)
Definition threshold_accuracy (threshold : Q) (scores : list Q) : Q :=
  (inject_Z (len (filter (fun score => Qle_bool threshold score) scores))
   / inject_Z (len scores))%Q.




(** Occurrence of [s] as a contiguous part of [t]. *)
Definition occurs_in (s t : string) : bool :=
  match String.index 0 s t with
  | Some _ => true
  | None => false
  end.

Definition in_unit_interval (x : Q) : Prop := (0 <= x /\ x <= 1)%Q.

(** ** Predicates on tasks and traces used in the statements *)

(** A property of events holds of everything a task emits. *)
Definition emits {W A : Type} (P : event -> Prop) (m : task W A) : Prop :=
  forall w r w' tr, m w = (r, w', tr) -> Forall P tr.

(** An exception ends the task: when a task raises through an awaited call,
    that call is the last event; otherwise no event raised. *)
Definition unwinds {W A : Type} (m : task W A) : Prop :=
  forall w r w' tr, m w = (r, w', tr) ->
    match r with
    | Return _ => Forall (fun ev => raised ev = None) tr
    | Raise e =>
        (exists pre ev, tr = pre ++ [ev] /\ raised ev = Some e /\
                        Forall (fun ev' => raised ev' = None) pre) \/
        (e = ZeroDivisionError /\ Forall (fun ev => raised ev = None) tr)
    end.

(** Every save and every query names the database [db]. *)
Definition targets (db : VectorDB.t) (ev : event) : Prop :=
  match ev with
  | EvSaveChunks _ d _ => d = db
  | EvRetrieve _ d _ _ => d = db
  | _ => True
  end.

(** The average of the scores graded in one method's part of the trace. *)
Definition block_average (block : trace) : Q :=
  (sum (scores_of block) / inject_Z (len (scores_of block)))%Q.

(** [results[method.value] = ...] for each method, in order. *)
Definition record_averages (results : dict)
  (entries : list (ChunkingMethod.t * trace)) : dict :=
  fold_left (fun results entry =>
               dict_set results (ChunkingMethod.value (fst entry))
                        (block_average (snd entry)))
            entries results.

(** ** The spec's two-strategy scenario: strategy [A] is the first method
       and [B] the second; the grader returns [A]'s three scores and then
       [B]'s. *)

Definition scenario_scores_A : list Q := [9 # 10; 2 # 10; 7 # 10].
Definition scenario_scores_B : list Q := [5 # 10; 5 # 10; 5 # 10].

Definition scenario : script :=
  graded (map Return (scenario_scores_A ++ scenario_scores_B)).

Definition strategy_A : ChunkingMethod.t := ChunkingMethod.UNSTRUCTURED.
Definition strategy_B : ChunkingMethod.t := ChunkingMethod.AI21.

(** The document of the notebook's second cell. *)
Definition notebook_text : string := "Long piece of fiction text...".

(** Scripts for two runs: one whose question generator returns no question,
    one whose grader raises on the second answer. *)
Definition no_questions : script :=
  {| stdout := []; question_replies := [Return []]; retrieval_replies := [];
     answer_replies := []; grading_replies := [] |}.

Definition grading_fails : script :=
  graded [Return (9 # 10); Raise (Exception "GradingError")].

(** ** Further observations on a trace *)

(** The arguments of the calls to [chunk_text], and the chunk lists it
    returned. *)
Definition chunk_calls (tr : trace) : list (string * ChunkingMethod.t) :=
  flat_map (fun ev => match ev with
                      | EvChunkText text method _ => [(text, method)]
                      | _ => []
                      end) tr.

Definition chunks_produced (tr : trace) : list (list string) :=
  flat_map (fun ev => match ev with
                      | EvChunkText _ _ (Return chunks) => [chunks]
                      | _ => []
                      end) tr.

(** Which coroutine an event is a call of. *)
Definition is_chunk_text (ev : event) : bool :=
  match ev with EvChunkText _ _ _ => true | _ => false end.

Definition is_save_chunks (ev : event) : bool :=
  match ev with EvSaveChunks _ _ _ => true | _ => false end.

Definition is_generate_questions (ev : event) : bool :=
  match ev with EvGenerateQuestions _ _ _ => true | _ => false end.

Definition is_retrieve (ev : event) : bool :=
  match ev with EvRetrieve _ _ _ _ => true | _ => false end.

Definition is_generate_answer (ev : event) : bool :=
  match ev with EvGenerateAnswer _ _ _ => true | _ => false end.

Definition is_evaluate_answer (ev : event) : bool :=
  match ev with EvEvaluateAnswer _ _ _ => true | _ => false end.

Definition count_events (p : event -> bool) (tr : trace) : nat :=
  length (filter p tr).

(** The calls made for one question: retrieval on [db] with the default
    [top_k]; then, if it returned, answer generation from the retrieved
    chunks; then, if that returned, grading of the answer against the
    literal ["correct_answer"]. *)
Inductive round (db : VectorDB.t) : trace -> Prop :=
| round_retrieval_raised (question : string) (e : exn) :
    round db [EvRetrieve question db default_top_k (Raise e)]
| round_generation_raised (question : string) (chunks : list string)
    (e : exn) :
    round db [EvRetrieve question db default_top_k (Return chunks);
              EvGenerateAnswer question chunks (Raise e)]
| round_graded (question : string) (chunks : list string) (answer : string)
    (graded : outcome Q) :
    round db [EvRetrieve question db default_top_k (Return chunks);
              EvGenerateAnswer question chunks (Return answer);
              EvEvaluateAnswer answer "correct_answer" graded].


(** * Properties *)

(** ** Observations distribute over concatenation *)

Lemma questions_generated_app (t1 t2 : trace) :
  questions_generated (t1 ++ t2) = questions_generated t1 ++ questions_generated t2.
Proof. apply flat_map_app. Qed.

Lemma questions_asked_app (t1 t2 : trace) :
  questions_asked (t1 ++ t2) = questions_asked t1 ++ questions_asked t2.
Proof. apply flat_map_app. Qed.

Lemma scores_of_app (t1 t2 : trace) :
  scores_of (t1 ++ t2) = scores_of t1 ++ scores_of t2.
Proof. apply flat_map_app. Qed.

Lemma indexes_written_app (t1 t2 : trace) :
  indexes_written (t1 ++ t2) = indexes_written t1 ++ indexes_written t2.
Proof. apply flat_map_app. Qed.

Lemma indexes_queried_app (t1 t2 : trace) :
  indexes_queried (t1 ++ t2) = indexes_queried t1 ++ indexes_queried t2.
Proof. apply flat_map_app. Qed.

Lemma chunk_sets_saved_app (t1 t2 : trace) :
  chunk_sets_saved (t1 ++ t2) = chunk_sets_saved t1 ++ chunk_sets_saved t2.
Proof. apply flat_map_app. Qed.

Create Rewrite HintDb trace.
#[local] Hint Rewrite questions_generated_app questions_asked_app scores_of_app
  indexes_written_app indexes_queried_app chunk_sets_saved_app : trace.

(** ** Inversion of the monad's operations *)

Section Monad.
Context {W : Type}.

Lemma ret_inv {A : Type} (a : A) (w w' : W) (r : outcome A) (tr : trace) :
  ret a w = (r, w', tr) -> r = Return a /\ w' = w /\ tr = [].
Proof. unfold ret. intros H. inversion H. auto. Qed.

Lemma lift_inv {A : Type} (r0 r : outcome A) (w w' : W) (tr : trace) :
  lift r0 w = (r, w', tr) -> r = r0 /\ w' = w /\ tr = [].
Proof. unfold lift. intros H. inversion H. auto. Qed.

Lemma await_inv {A : Type} (c : coroutine W A) (ev : outcome A -> event)
  (w w' : W) (r : outcome A) (tr : trace) :
  await c ev w = (r, w', tr) -> c w = (r, w') /\ tr = [ev r].
Proof.
  unfold await. destruct (c w) as [r1 w1]. intros H. inversion H. auto.
Qed.

Lemma bind_inv {A B : Type} (m : task W A) (f : A -> task W B)
  (w w' : W) (r : outcome B) (tr : trace) :
  bind m f w = (r, w', tr) ->
  (exists e, m w = (Raise e, w', tr) /\ r = Raise e) \/
  (exists a w1 t1 t2,
      m w = (Return a, w1, t1) /\ f a w1 = (r, w', t2) /\ tr = t1 ++ t2).
Proof.
  unfold bind. destruct (m w) as [[[a | e] w1] t1].
  - destruct (f a w1) as [[r2 w2] t2] eqn:Hf. intros H. inversion H; subst.
    right. exists a, w1, t1, t2. auto.
  - intros H. inversion H; subst. left. exists e. auto.
Qed.

Lemma bind_Return_inv {A B : Type} (m : task W A) (f : A -> task W B)
  (w w' : W) (b : B) (tr : trace) :
  bind m f w = (Return b, w', tr) ->
  exists a w1 t1 t2,
    m w = (Return a, w1, t1) /\ f a w1 = (Return b, w', t2) /\ tr = t1 ++ t2.
Proof.
  intros H. apply bind_inv in H. destruct H as [(e & _ & He) | H].
  - discriminate He.
  - exact H.
Qed.

Lemma emits_ret {A : Type} (P : event -> Prop) (a : A) :
  emits (W := W) P (ret a).
Proof. intros w r w' tr H. apply ret_inv in H as (_ & _ & ->). constructor. Qed.

Lemma emits_lift {A : Type} (P : event -> Prop) (r0 : outcome A) :
  emits (W := W) P (lift r0).
Proof. intros w r w' tr H. apply lift_inv in H as (_ & _ & ->). constructor. Qed.

Lemma emits_await {A : Type} (P : event -> Prop) (c : coroutine W A)
  (ev : outcome A -> event) :
  (forall r, P (ev r)) -> emits P (await c ev).
Proof.
  intros HP w r w' tr H. apply await_inv in H as (_ & ->). repeat constructor.
  apply HP.
Qed.

Lemma emits_bind {A B : Type} (P : event -> Prop) (m : task W A)
  (f : A -> task W B) :
  emits P m -> (forall a, emits P (f a)) -> emits P (bind m f).
Proof.
  intros Hm Hf w r w' tr H. apply bind_inv in H.
  destruct H as [(e & H & _) | (a & w1 & t1 & t2 & H1 & H2 & ->)].
  - eapply Hm; eauto.
  - apply Forall_app. split; [eapply Hm | eapply Hf]; eauto.
Qed.

Lemma unwinds_ret {A : Type} (a : A) : unwinds (W := W) (ret a).
Proof. intros w r w' tr H. apply ret_inv in H as (-> & _ & ->). constructor. Qed.

Lemma unwinds_await {A : Type} (c : coroutine W A) (ev : outcome A -> event) :
  (forall r, raised (ev r) = exn_of r) -> unwinds (await c ev).
Proof.
  intros Hev w r w' tr H. apply await_inv in H as (_ & ->).
  specialize (Hev r). destruct r as [a | e]; simpl in Hev.
  - repeat constructor. exact Hev.
  - left. exists [], (ev (Raise e)). repeat split; auto.
Qed.

Lemma unwinds_bind {A B : Type} (m : task W A) (f : A -> task W B) :
  unwinds m -> (forall a, unwinds (f a)) -> unwinds (bind m f).
Proof.
  intros Hm Hf w r w' tr H. apply bind_inv in H.
  destruct H as [(e & H & ->) | (a & w1 & t1 & t2 & H1 & H2 & ->)].
  - apply Hm in H. exact H.
  - apply Hm in H1. apply Hf in H2. destruct r as [b | e].
    + apply Forall_app. auto.
    + destruct H2 as [(pre & ev & -> & Hev & Hpre) | (-> & Hall)].
      * left. exists (t1 ++ pre), ev. rewrite app_assoc.
        repeat split; auto. apply Forall_app. auto.
      * right. split; auto. apply Forall_app. auto.
Qed.

End Monad.

(** ** The aggregation *)

Lemma mean_score_inv (method_scores : list Q) (r : outcome Q) :
  mean_score method_scores = r ->
  (method_scores = [] /\ r = Raise ZeroDivisionError) \/
  (method_scores <> [] /\
   r = Return (sum method_scores / inject_Z (len method_scores))%Q).
Proof.
  unfold mean_score, true_div, len. intros <-.
  destruct method_scores as [| x l]; simpl length.
  - left. auto.
  - right. split; [discriminate |].
    destruct (Z.eqb_spec (Z.of_nat (Datatypes.S (length l))) 0) as [E | _];
      [lia | reflexivity].
Qed.

Lemma unwinds_mean_score {W : Type} (method_scores : list Q) :
  unwinds (W := W) (lift (mean_score method_scores)).
Proof.
  intros w r w' tr H. apply lift_inv in H as (-> & _ & ->).
  destruct (mean_score_inv method_scores _ eq_refl) as [(_ & ->) | (_ & ->)].
  - right. split; constructor.
  - constructor.
Qed.

Lemma fold_left_Qplus_bounds (l : list Q) (a : Q) :
  Forall in_unit_interval l ->
  (a <= fold_left Qplus l a /\
   fold_left Qplus l a <= a + inject_Z (Z.of_nat (length l)))%Q.
Proof.
  intros H. revert a. induction H as [| x l [Hx0 Hx1] _ IH]; intros a.
  - simpl. unfold inject_Z. lra.
  - simpl fold_left. destruct (IH (a + x)%Q) as [IH1 IH2].
    assert (E : (inject_Z (Z.of_nat (length (x :: l)))
                 == 1 + inject_Z (Z.of_nat (length l)))%Q).
    { simpl length. rewrite Nat2Z.inj_succ, <- Z.add_1_l, inject_Z_plus.
      reflexivity. }
    rewrite E. split; lra.
Qed.

Lemma mean_score_in_unit_interval (method_scores : list Q) (average : Q) :
  Forall in_unit_interval method_scores ->
  mean_score method_scores = Return average ->
  in_unit_interval average.
Proof.
  intros Hall Hm. apply mean_score_inv in Hm.
  destruct Hm as [(_ & Hm) | (Hne & Hm)]; [discriminate |].
  injection Hm as ->.
  destruct (fold_left_Qplus_bounds method_scores 0 Hall) as [H0 H1].
  fold (sum method_scores) in H0, H1. unfold len.
  assert (Hpos : (0 < inject_Z (Z.of_nat (length method_scores)))%Q).
  { destruct method_scores; [congruence |].
    rewrite <- (Zlt_Qlt 0). simpl length. lia. }
  split.
  - apply Qle_shift_div_l; [exact Hpos | lra].
  - apply Qle_shift_div_r; [exact Hpos | lra].
Qed.

(** ** The driver's loops *)

Lemma Forall_chunking_no_questions (tr : trace) :
  Forall (fun ev => chunking_event ev = true) tr ->
  questions_generated tr = [] /\ questions_asked tr = [] /\ scores_of tr = [].
Proof.
  induction 1 as [| ev tr Hev _ (IH1 & IH2 & IH3)]; [auto |].
  destruct ev; try discriminate Hev; simpl; auto.
Qed.

Lemma Forall_evaluation_no_generation (tr : trace) :
  Forall (fun ev => evaluation_event ev = true) tr ->
  questions_generated tr = [] /\ indexes_written tr = [] /\
  chunk_sets_saved tr = [].
Proof.
  induction 1 as [| ev tr Hev _ (IH1 & IH2 & IH3)]; [auto |].
  destruct ev; try discriminate Hev; simpl; auto.
Qed.

Lemma Forall_targets_written (db : VectorDB.t) (tr : trace) :
  Forall (targets db) tr ->
  Forall (eq db) (indexes_written tr) /\ Forall (eq db) (indexes_queried tr).
Proof.
  induction 1 as [| ev tr Hev _ (IH1 & IH2)]; [split; constructor |].
  destruct ev; simpl in *; subst; auto.
Qed.

Section DriverFacts.
Context {W : Type} {S : Services W}.

Ltac emits_step :=
  repeat first
    [ apply emits_ret | apply emits_lift
    | apply emits_await; intros; simpl; auto
    | apply emits_bind; [| intros ] ].

Ltac unwinds_step :=
  repeat first
    [ apply unwinds_ret | apply unwinds_mean_score
    | apply unwinds_await; intros; reflexivity
    | apply unwinds_bind; [| intros ] ].

(** *** Chunking phase *)

Lemma chunk_and_save_emits (text : string) (methods : list ChunkingMethod.t)
  (db : VectorDB.t) :
  emits (fun ev => chunking_event ev = true /\ targets db ev)
        (chunk_and_save text methods db).
Proof.
  induction methods as [| method rest IH]; simpl; emits_step. exact IH.
Qed.

Lemma chunk_and_save_unwinds (text : string) (methods : list ChunkingMethod.t)
  (db : VectorDB.t) :
  unwinds (chunk_and_save text methods db).
Proof.
  induction methods as [| method rest IH]; simpl; unwinds_step. exact IH.
Qed.

Lemma chunk_and_save_Return (text : string) (methods : list ChunkingMethod.t)
  (db : VectorDB.t) (w w' : W) (u : unit) (tr : trace) :
  chunk_and_save text methods db w = (Return u, w', tr) ->
  indexes_written tr = repeat db (length methods) /\
  length (chunk_sets_saved tr) = length methods.
Proof.
  revert w tr. induction methods as [| method rest IH]; intros w tr; simpl.
  - intros H. apply ret_inv in H as (_ & _ & ->). auto.
  - intros H.
    apply bind_Return_inv in H as (chunks & w1 & t1 & t2 & H1 & H & ->).
    apply bind_Return_inv in H as (u2 & w2 & t3 & t4 & H2 & H & ->).
    apply await_inv in H1 as (_ & ->). apply await_inv in H2 as (_ & ->).
    apply IH in H as (IH1 & IH2).
    autorewrite with trace. simpl. rewrite IH1, IH2. auto.
Qed.

(** *** Evaluation of one method *)

Lemma evaluate_questions_emits (questions : list string) (db : VectorDB.t)
  (method_scores : list Q) :
  emits (fun ev => evaluation_event ev = true /\ targets db ev)
        (evaluate_questions questions db method_scores).
Proof.
  revert method_scores.
  induction questions as [| question rest IH]; intros method_scores; simpl;
    emits_step. apply IH.
Qed.

Lemma evaluate_questions_unwinds (questions : list string) (db : VectorDB.t)
  (method_scores : list Q) :
  unwinds (evaluate_questions questions db method_scores).
Proof.
  revert method_scores.
  induction questions as [| question rest IH]; intros method_scores; simpl;
    unwinds_step. apply IH.
Qed.

Lemma evaluate_questions_Return (questions : list string) (db : VectorDB.t)
  (method_scores scores : list Q) (w w' : W) (tr : trace) :
  evaluate_questions questions db method_scores w = (Return scores, w', tr) ->
  scores = method_scores ++ scores_of tr /\
  questions_asked tr = questions /\
  length (scores_of tr) = length questions.
Proof.
  revert method_scores w tr.
  induction questions as [| question rest IH]; intros method_scores w tr; simpl.
  - intros H. apply ret_inv in H as (H & _ & ->). injection H as <-.
    simpl. rewrite app_nil_r. auto.
  - intros H.
    apply bind_Return_inv in H as (chunks & w1 & t1 & t2 & H1 & H & ->).
    apply bind_Return_inv in H as (answer & w2 & t3 & t4 & H2 & H & ->).
    apply bind_Return_inv in H as (score & w3 & t5 & t6 & H3 & H & ->).
    apply await_inv in H1 as (_ & ->). apply await_inv in H2 as (_ & ->).
    apply await_inv in H3 as (_ & ->).
    apply IH in H as (-> & IH2 & IH3).
    autorewrite with trace. simpl. rewrite IH2, IH3, <- app_assoc. auto.
Qed.

(** *** Evaluation of all methods *)

Lemma evaluate_methods_emits (methods : list ChunkingMethod.t)
  (questions : list string) (db : VectorDB.t) (results : dict) :
  emits (fun ev => evaluation_event ev = true /\ targets db ev)
        (evaluate_methods methods questions db results).
Proof.
  revert results.
  induction methods as [| method rest IH]; intros results; simpl; emits_step.
  - apply evaluate_questions_emits.
  - apply IH.
Qed.

Lemma evaluate_methods_unwinds (methods : list ChunkingMethod.t)
  (questions : list string) (db : VectorDB.t) (results : dict) :
  unwinds (evaluate_methods methods questions db results).
Proof.
  revert results.
  induction methods as [| method rest IH]; intros results; simpl; unwinds_step.
  - apply evaluate_questions_unwinds.
  - apply IH.
Qed.

Lemma evaluate_methods_Return (methods : list ChunkingMethod.t)
  (questions : list string) (db : VectorDB.t) (results results' : dict)
  (w w' : W) (tr : trace) :
  evaluate_methods methods questions db results w = (Return results', w', tr) ->
  exists blocks,
    tr = concat blocks /\
    length blocks = length methods /\
    Forall (fun block => questions_asked block = questions /\
                         length (scores_of block) = length questions /\
                         scores_of block <> []) blocks /\
    results' = record_averages results (combine methods blocks).
Proof.
  revert results w tr.
  induction methods as [| method rest IH]; intros results w tr; simpl.
  - intros H. apply ret_inv in H as (H & _ & ->). injection H as <-.
    exists []. repeat split; auto.
  - intros H.
    apply bind_Return_inv in H as (scores & w1 & t1 & t2 & H1 & H & ->).
    apply bind_Return_inv in H as (average & w2 & t3 & t4 & H2 & H & ->).
    apply lift_inv in H2 as (H2 & -> & ->).
    apply evaluate_questions_Return in H1 as (-> & Hq & Hl).
    simpl in H2. symmetry in H2. apply mean_score_inv in H2.
    destruct H2 as [(_ & H2) | (Hne & H2)]; [discriminate |].
    injection H2 as ->.
    apply IH in H as (blocks & -> & Hlen & Hall & ->).
    exists (t1 :: blocks). simpl. repeat split; auto.
Qed.



End DriverFacts.

(** ** The [results] dict *)

Lemma dict_set_keys (results : dict) (k : string) (v : Q) (k' : string) :
  In k' (map fst (dict_set results k v)) <-> k' = k \/ In k' (map fst results).
Proof.
  induction results as [| [k0 v0] rest IH]; simpl.
  - intuition.
  - destruct (String.eqb_spec k0 k) as [-> | Hne]; simpl.
    + intuition.
    + rewrite IH. intuition.
Qed.

Lemma dict_set_values (P : Q -> Prop) (results : dict) (k : string) (v : Q) :
  P v -> Forall (fun kv => P (snd kv)) results ->
  Forall (fun kv => P (snd kv)) (dict_set results k v).
Proof.
  intros Hv. induction 1 as [| [k0 v0] rest H0 Hrest IH]; simpl.
  - repeat constructor. exact Hv.
  - destruct (String.eqb k0 k); constructor; auto.
Qed.

Lemma dict_get_In (results : dict) (k : string) (v : Q) :
  dict_get results k = Some v -> In (k, v) results.
Proof.
  induction results as [| [k0 v0] rest IH]; simpl; [discriminate |].
  destruct (String.eqb_spec k0 k) as [-> | _].
  - intros H. injection H as ->. auto.
  - auto.
Qed.

Lemma dict_get_keys (results : dict) (k : string) :
  In k (map fst results) -> exists v, dict_get results k = Some v.
Proof.
  induction results as [| [k0 v0] rest IH]; simpl; [contradiction |].
  destruct (String.eqb_spec k0 k) as [-> | Hne].
  - intros _. exists v0. reflexivity.
  - intros [H | H]; [contradiction | auto].
Qed.

Lemma record_averages_keys (entries : list (ChunkingMethod.t * trace))
  (results : dict) (k : string) :
  In k (map fst (record_averages results entries)) <->
  In k (map (fun entry => ChunkingMethod.value (fst entry)) entries) \/
  In k (map fst results).
Proof.
  unfold record_averages. revert results.
  induction entries as [| entry rest IH]; intros results; simpl.
  - intuition.
  - rewrite IH, dict_set_keys. intuition.
Qed.

Lemma record_averages_values (P : Q -> Prop)
  (entries : list (ChunkingMethod.t * trace)) (results : dict) :
  Forall (fun entry => P (block_average (snd entry))) entries ->
  Forall (fun kv => P (snd kv)) results ->
  Forall (fun kv => P (snd kv)) (record_averages results entries).
Proof.
  unfold record_averages. intros H. revert results.
  induction H as [| entry rest He _ IH]; intros results Hr; simpl.
  - exact Hr.
  - apply IH. apply dict_set_values; assumption.
Qed.

Lemma map_value_combine (methods : list ChunkingMethod.t) (blocks : list trace) :
  length blocks = length methods ->
  map (fun entry : ChunkingMethod.t * trace => ChunkingMethod.value (fst entry))
      (combine methods blocks)
  = map ChunkingMethod.value methods.
Proof.
  revert blocks. induction methods as [| m rest IH]; intros [| b blocks];
    simpl; try discriminate; auto.
  intros H. injection H as H. rewrite IH; auto.
Qed.

Lemma scores_of_concat_In (blocks : list trace) (block : trace) (score : Q) :
  In block blocks -> In score (scores_of block) ->
  In score (scores_of (concat blocks)).
Proof.
  induction blocks as [| b rest IH]; simpl; [contradiction |].
  intros [-> | Hin] Hs; rewrite scores_of_app; apply in_or_app; auto.
Qed.

(** ** The whole run *)

Section RunFacts.
Context {W : Type} {S : Services W}.

Lemma run_benchmark_unwinds (text : string) (methods : list ChunkingMethod.t)
  (db : VectorDB.t) :
  unwinds (run_benchmark text methods db).
Proof.
  unfold run_benchmark. apply unwinds_bind; [apply chunk_and_save_unwinds |].
  intros _. apply unwinds_bind; [apply unwinds_await; reflexivity |].
  intros questions. apply evaluate_methods_unwinds.
Qed.

Lemma run_benchmark_targets (text : string) (methods : list ChunkingMethod.t)
  (db : VectorDB.t) :
  emits (targets db) (run_benchmark text methods db).
Proof.
  unfold run_benchmark. apply emits_bind.
  - intros w r w' tr H. apply chunk_and_save_emits in H.
    eapply Forall_impl; [| exact H]. simpl. intros ev [_ Hev]. exact Hev.
  - intros _. apply emits_bind; [apply emits_await; intros; exact I |].
    intros questions w r w' tr H. apply evaluate_methods_emits in H.
    eapply Forall_impl; [| exact H]. simpl. intros ev [_ Hev]. exact Hev.
Qed.

(** The shape of a run that returns: the chunking phase, one call of the
    question generator, then one block of evaluation events per method. *)
Lemma run_benchmark_Return (text : string) (methods : list ChunkingMethod.t)
  (db : VectorDB.t) (w w' : W) (results : dict) (tr : trace) :
  run_benchmark text methods db w = (Return results, w', tr) ->
  exists chunking questions blocks,
    tr = chunking ++ EvGenerateQuestions text 10 (Return questions)
                  :: concat blocks /\
    Forall (fun ev => chunking_event ev = true) chunking /\
    indexes_written chunking = repeat db (length methods) /\
    Forall (fun ev => evaluation_event ev = true) (concat blocks) /\
    length blocks = length methods /\
    Forall (fun block => questions_asked block = questions /\
                         length (scores_of block) = length questions /\
                         scores_of block <> []) blocks /\
    results = record_averages [] (combine methods blocks).
Proof.
  unfold run_benchmark. intros H.
  apply bind_Return_inv in H as (u & w1 & t1 & t2 & H1 & H & ->).
  apply bind_Return_inv in H as (questions & w2 & t3 & t4 & H2 & H & ->).
  apply await_inv in H2 as (_ & ->).
  pose proof (chunk_and_save_emits _ _ _ _ _ _ _ H1) as Hc.
  apply chunk_and_save_Return in H1 as (Hw & _).
  pose proof (evaluate_methods_emits _ _ _ _ _ _ _ _ H) as He.
  apply evaluate_methods_Return in H as (blocks & -> & Hlen & Hall & ->).
  exists t1, questions, blocks. simpl. repeat split; auto.
  - eapply Forall_impl; [| exact Hc]. simpl. intros ev [Hev _]. exact Hev.
  - eapply Forall_impl; [| exact He]. simpl. intros ev [Hev _]. exact Hev.
Qed.


End RunFacts.

(** ** The chunking phase within a run *)

Lemma chunk_calls_app (t1 t2 : trace) :
  chunk_calls (t1 ++ t2) = chunk_calls t1 ++ chunk_calls t2.
Proof. apply flat_map_app. Qed.

Lemma chunks_produced_app (t1 t2 : trace) :
  chunks_produced (t1 ++ t2) = chunks_produced t1 ++ chunks_produced t2.
Proof. apply flat_map_app. Qed.

Lemma Forall_not_chunking (tr : trace) :
  Forall (fun ev => chunking_event ev = false) tr ->
  chunk_calls tr = [] /\ chunks_produced tr = [] /\ chunk_sets_saved tr = [] /\
  indexes_written tr = [].
Proof.
  induction 1 as [| ev tr Hev _ (IH1 & IH2 & IH3 & IH4)]; [auto |].
  destruct ev; try discriminate Hev; simpl; auto.
Qed.

Section ChunkingPhase.
Context {W : Type} {S : Services W}.

Lemma chunk_and_save_flow (text : string) (methods : list ChunkingMethod.t)
  (db : VectorDB.t) (w w' : W) (r : outcome unit) (tr : trace) :
  chunk_and_save text methods db w = (r, w', tr) ->
  (exists rest, map (pair text) methods = chunk_calls tr ++ rest) /\
  (exists rest, chunks_produced tr = chunk_sets_saved tr ++ rest) /\
  (forall u, r = Return u ->
     chunk_calls tr = map (pair text) methods /\
     chunk_sets_saved tr = chunks_produced tr).
Proof.
  revert w tr. induction methods as [| method rest IH]; intros w tr; simpl.
  - intros H. apply ret_inv in H as (_ & _ & ->).
    split; [exists []; reflexivity |].
    split; [exists []; reflexivity | auto].
  - intros H. apply bind_inv in H.
    destruct H as [(e & H & ->) | (chunks & w1 & t1 & t2 & H1 & H & ->)].
    { apply await_inv in H as (_ & ->). simpl.
      split; [exists (map (pair text) rest); reflexivity |].
      split; [exists []; reflexivity | discriminate]. }
    apply await_inv in H1 as (_ & ->). apply bind_inv in H.
    destruct H as [(e & H & ->) | (u & w2 & t3 & t4 & H2 & H & ->)].
    { apply await_inv in H as (_ & ->). simpl.
      split; [exists (map (pair text) rest); reflexivity |].
      split; [exists []; reflexivity | discriminate]. }
    apply await_inv in H2 as (_ & ->).
    apply IH in H as ((rest1 & IH1) & (rest2 & IH2) & IH3).
    autorewrite with trace. rewrite !chunk_calls_app, !chunks_produced_app.
    simpl. split; [| split].
    + exists rest1. rewrite IH1. reflexivity.
    + exists rest2. rewrite IH2. reflexivity.
    + intros u' Hu. destruct (IH3 u' Hu) as (-> & ->). auto.
Qed.

(** A run is its chunking phase followed by events that are not chunking
    events; when the chunking phase raises, so does the run, at once. *)
Lemma run_benchmark_split (text : string) (methods : list ChunkingMethod.t)
  (db : VectorDB.t) (w w' : W) (r : outcome dict) (tr : trace) :
  run_benchmark text methods db w = (r, w', tr) ->
  exists r1 w1 t1 t2,
    chunk_and_save text methods db w = (r1, w1, t1) /\
    tr = t1 ++ t2 /\
    Forall (fun ev => chunking_event ev = false) t2 /\
    (forall e, r1 = Raise e -> r = Raise e /\ t2 = []) /\
    (forall results, r = Return results -> r1 = Return tt).
Proof.
  unfold run_benchmark. intros H. apply bind_inv in H.
  destruct H as [(e & H & ->) | (u & w1 & t1 & t2 & H1 & H & ->)].
  - exists (Raise e), w', tr, []. rewrite app_nil_r.
    split; [exact H |]. split; [reflexivity |]. split; [constructor |].
    split.
    + intros e' He'. injection He' as <-. auto.
    + intros results Hr. discriminate Hr.
  - destruct u. exists (Return tt), w1, t1, t2.
    split; [exact H1 |]. split; [reflexivity |].
    split; [| split; [intros e He; discriminate He | reflexivity]].
    apply bind_inv in H.
    destruct H as [(e & H & _) | (questions & w2 & t3 & t4 & H2 & H & ->)].
    + apply await_inv in H as (_ & ->). repeat constructor.
    + apply await_inv in H2 as (_ & ->). constructor; [reflexivity |].
      apply evaluate_methods_emits in H.
      eapply Forall_impl; [| exact H]. simpl. intros ev [Hev _].
      destruct ev; try discriminate Hev; reflexivity.
Qed.

End ChunkingPhase.

Lemma questions_asked_blocks (questions : list string) (blocks : list trace) :
  Forall (fun block => questions_asked block = questions) blocks ->
  questions_asked (concat blocks) = concat (repeat questions (length blocks)).
Proof.
  induction 1 as [| block blocks Hb _ IH]; simpl; [reflexivity |].
  rewrite questions_asked_app, Hb, IH. reflexivity.
Qed.

Lemma Forall_concat_blocks (P : event -> Prop) (blocks : list trace) :
  Forall P (concat blocks) -> Forall (Forall P) blocks.
Proof.
  induction blocks as [| block blocks IH]; simpl; intros H; [constructor |].
  apply Forall_app in H as (Hb & Hrest). constructor; auto.
Qed.

(** * The claims *)

(** ** Questions are generated once and shared *)



(** ** One vector database for every strategy *)

(** C4, as the code has it: every save and every retrieval of a run names the
    one vector database passed to [run_benchmark] (neither call takes a
    document or strategy id), and every chunk list saved is the list
    [chunk_text] returned for the strategy at hand.  A run that returns has
    chunked the text under every strategy in turn and saved each strategy's
    chunk list, one per strategy, into that one database, and has sent to
    retrieval the same questions on that database for every strategy. *)
Theorem one_vector_db_for_all_strategies {W : Type} {S : Services W}
  (text : string) (methods : list ChunkingMethod.t) (db : VectorDB.t)
  (w w' : W) (r : outcome dict) (tr : trace) :
  run_benchmark text methods db w = (r, w', tr) ->
  Forall (eq db) (indexes_written tr) /\
  Forall (eq db) (indexes_queried tr) /\
  (exists rest, map (pair text) methods = chunk_calls tr ++ rest) /\
  (exists rest, chunks_produced tr = chunk_sets_saved tr ++ rest) /\
  (forall results, r = Return results ->
     indexes_written tr = repeat db (length methods) /\
     chunk_calls tr = map (pair text) methods /\
     chunk_sets_saved tr = chunks_produced tr /\
     length (chunk_sets_saved tr) = length methods /\
     exists questions,
       questions_generated tr = [Return questions] /\
       questions_asked tr = concat (repeat questions (length methods))).
Proof.
  intros H. pose proof (run_benchmark_targets _ _ _ _ _ _ _ H) as Ht.
  apply Forall_targets_written in Ht as (Hw & Hq).
  split; [exact Hw |]. split; [exact Hq |].
  pose proof (run_benchmark_split _ _ _ _ _ _ _ H) as Hsplit.
  destruct Hsplit as (r1 & w1 & t1 & t2 & H1 & Htr & Hn & _ & Hret).
  apply Forall_not_chunking in Hn as (N1 & N2 & N3 & N4).
  pose proof (chunk_and_save_flow _ _ _ _ _ _ _ H1) as (F1 & F2 & F3).
  assert (E1 : chunk_calls tr = chunk_calls t1).
  { rewrite Htr, chunk_calls_app, N1. apply app_nil_r. }
  assert (E2 : chunks_produced tr = chunks_produced t1).
  { rewrite Htr, chunks_produced_app, N2. apply app_nil_r. }
  assert (E3 : chunk_sets_saved tr = chunk_sets_saved t1).
  { rewrite Htr, chunk_sets_saved_app, N3. apply app_nil_r. }
  assert (E4 : indexes_written tr = indexes_written t1).
  { rewrite Htr, indexes_written_app, N4. apply app_nil_r. }
  rewrite E1, E2, E3, E4.
  split; [exact F1 |]. split; [exact F2 |].
  intros results ->. specialize (Hret results eq_refl). subst r1.
  destruct (F3 tt eq_refl) as (F4 & F5).
  apply chunk_and_save_Return in H1 as (Hi & Hlen).
  split; [exact Hi |]. split; [exact F4 |]. split; [exact F5 |].
  split; [exact Hlen |].
  rewrite <- E1, <- E2, <- E3, <- E4 in *. clear E1 E2 E3 E4.
  apply run_benchmark_Return in H.
  destruct H as (chunking & questions & blocks & Htr' & Hc & _ & He & Hlenb
                 & Hall & _).
  exists questions. rewrite Htr'.
  apply Forall_chunking_no_questions in Hc as (Hc1 & Hc2 & _).
  apply Forall_evaluation_no_generation in He as (He1 & _).
  rewrite questions_generated_app, questions_asked_app. simpl.
  rewrite Hc1, Hc2, He1. split; [reflexivity |]. simpl.
  rewrite <- Hlenb. apply questions_asked_blocks.
  eapply Forall_impl; [| exact Hall]. simpl. intros block (Hb & _). exact Hb.
Qed.

Lemma one_vector_db_for_all_strategies_witness :
  let run := run_benchmark (S := notebook) notebook_text
               [strategy_A; strategy_B] VectorDB.ASTRA [] in
  Forall (eq VectorDB.ASTRA) (indexes_written (snd run)) /\
  Forall (eq VectorDB.ASTRA) (indexes_queried (snd run)) /\
  (exists rest,
     map (pair notebook_text) [strategy_A; strategy_B]
     = chunk_calls (snd run) ++ rest) /\
  (exists rest,
     chunks_produced (snd run) = chunk_sets_saved (snd run) ++ rest) /\
  (forall results,
     fst (fst run) = Return results ->
     indexes_written (snd run)
     = repeat VectorDB.ASTRA (length [strategy_A; strategy_B]) /\
     chunk_calls (snd run)
     = map (pair notebook_text) [strategy_A; strategy_B] /\
     chunk_sets_saved (snd run) = chunks_produced (snd run) /\
     length (chunk_sets_saved (snd run))
     = length [strategy_A; strategy_B] /\
     exists questions,
       questions_generated (snd run) = [Return questions] /\
       questions_asked (snd run)
       = concat (repeat questions (length [strategy_A; strategy_B]))).
Proof.
  intros run.
  apply (one_vector_db_for_all_strategies (S := notebook) notebook_text
           [strategy_A; strategy_B] VectorDB.ASTRA []
           ["Saving 3 chunks to astra"; "Saving 3 chunks to astra"]).
  vm_compute. reflexivity.
Defined.

(** ** Exceptions end the run *)

(** C6, as the code has it: when an awaited call of a run raises (a
    retrieval, an answer generation or a grading among them), the run itself
    raises that exception instead of returning a table, and the failed call
    is its last event: no later question or strategy is evaluated. *)
Theorem failure_aborts_run {W : Type} {S : Services W}
  (text : string) (methods : list ChunkingMethod.t) (db : VectorDB.t)
  (w w' : W) (r : outcome dict) (tr : trace) (ev : event) (e : exn) :
  run_benchmark text methods db w = (r, w', tr) ->
  In ev tr -> raised ev = Some e ->
  r = Raise e /\
  exists pre, tr = pre ++ [ev] /\ Forall (fun ev' => raised ev' = None) pre.
Proof.
  intros H Hin Hev. apply run_benchmark_unwinds in H.
  assert (Hno : forall l, Forall (fun ev' => raised ev' = None) l ->
                          In ev l -> False).
  { intros l Hl Hi. rewrite Forall_forall in Hl. apply Hl in Hi. congruence. }
  destruct r as [results | e'].
  - exfalso. eauto.
  - destruct H as [(pre & ev' & -> & Hev' & Hpre) | (_ & Hall)].
    + apply in_app_or in Hin. destruct Hin as [Hin | [<- | []]].
      * exfalso. eauto.
      * split; [congruence | eauto].
    + exfalso. eauto.
Qed.

Lemma failure_aborts_run_witness :
  fst (fst (run_benchmark (S := scripted) notebook_text
              [strategy_A; strategy_B] VectorDB.ASTRA grading_fails))
  = Raise (Exception "GradingError") /\
  exists pre,
    snd (run_benchmark (S := scripted) notebook_text
           [strategy_A; strategy_B] VectorDB.ASTRA grading_fails)
    = pre ++ [EvEvaluateAnswer "Generated answer based on context"
                "correct_answer" (Raise (Exception "GradingError"))] /\
    Forall (fun ev' => raised ev' = None) pre.
Proof.
  apply (failure_aborts_run (S := scripted) notebook_text
           [strategy_A; strategy_B] VectorDB.ASTRA grading_fails
           (snd (fst (run_benchmark (S := scripted) notebook_text
                        [strategy_A; strategy_B] VectorDB.ASTRA
                        grading_fails)))).
  - vm_compute. reflexivity.
  - vm_compute. do 10 right. left. reflexivity.
  - reflexivity.
Defined.

(** ** The aggregate is the average score *)

Lemma block_average_in_unit_interval (block : trace) :
  scores_of block <> [] ->
  Forall in_unit_interval (scores_of block) ->
  in_unit_interval (block_average block).
Proof.
  intros Hne Hall. apply (mean_score_in_unit_interval (scores_of block)); auto.
  destruct (mean_score_inv (scores_of block) _ eq_refl) as [(H & _) | (_ & H)].
  - contradiction.
  - exact H.
Qed.

(** C2, as the code has it: when a run returns its table, every strategy
    given has an entry, and every reported average lies in [0,1] provided
    every score the grader returned does.  (The code has no undefined value:
    it divides by the number of scores without a guard.) *)
Theorem averages_in_unit_interval {W : Type} {S : Services W}
  (text : string) (methods : list ChunkingMethod.t) (db : VectorDB.t)
  (w w' : W) (results : dict) (tr : trace) :
  run_benchmark text methods db w = (Return results, w', tr) ->
  Forall in_unit_interval (scores_of tr) ->
  (forall method, In method methods ->
     exists average,
       dict_get results (ChunkingMethod.value method) = Some average) /\
  (forall k average,
     dict_get results k = Some average -> in_unit_interval average).
Proof.
  intros H Hs. apply run_benchmark_Return in H.
  destruct H as (chunking & questions & blocks & -> & _ & _ & _ & Hlen
                 & Hall & ->).
  split.
  - intros method Hin. apply dict_get_keys. apply record_averages_keys. left.
    rewrite map_value_combine by exact Hlen. apply in_map. exact Hin.
  - intros k average Hget. apply dict_get_In in Hget.
    assert (Hv : Forall (fun kv : string * Q => in_unit_interval (snd kv))
                   (record_averages [] (combine methods blocks))).
    { apply record_averages_values; [| constructor].
      apply Forall_forall. intros [method block] Hin. simpl.
      apply in_combine_r in Hin. rewrite Forall_forall in Hall.
      destruct (Hall block Hin) as (_ & _ & Hne).
      apply block_average_in_unit_interval; [exact Hne |].
      apply Forall_forall. intros score Hscore.
      rewrite Forall_forall in Hs. apply Hs.
      rewrite scores_of_app. apply in_or_app. right. simpl.
      eapply scores_of_concat_In; eauto. }
    rewrite Forall_forall in Hv. apply (Hv (k, average)). exact Hget.
Qed.

Lemma averages_in_unit_interval_witness :
  (forall method, In method [strategy_A; strategy_B] ->
     exists average,
       dict_get [("unstructured", 1800 # 3000); ("ai21", 1500 # 3000)]
                (ChunkingMethod.value method) = Some average) /\
  (forall k average,
     dict_get [("unstructured", 1800 # 3000); ("ai21", 1500 # 3000)] k
     = Some average -> in_unit_interval average).
Proof.
  apply (averages_in_unit_interval (S := scripted) notebook_text
           [strategy_A; strategy_B] VectorDB.ASTRA scenario
           (snd (fst (run_benchmark (S := scripted) notebook_text
                        [strategy_A; strategy_B] VectorDB.ASTRA scenario)))
           [("unstructured", 1800 # 3000); ("ai21", 1500 # 3000)]
           (snd (run_benchmark (S := scripted) notebook_text
                   [strategy_A; strategy_B] VectorDB.ASTRA scenario))).
  - vm_compute. reflexivity.
  - vm_compute. repeat constructor; discriminate.
Defined.



(** ** The spec's scenario *)

(** C1, as the code has it: in the scenario (one document, strategies [A]
    and [B], three questions, every call succeeding with scores 0.9, 0.2,
    0.7 for [A] and 0.5, 0.5, 0.5 for [B]) the run reports for each strategy
    the sum of its scores divided by their number, 0.6 for [A] and 0.5 for
    [B]; no threshold enters. *)
Theorem scenario_reports_average_scores (text : string) (db : VectorDB.t) :
  exists a b w' tr,
    run_benchmark (S := scripted) text [strategy_A; strategy_B] db scenario
    = (Return [(ChunkingMethod.value strategy_A, a);
               (ChunkingMethod.value strategy_B, b)], w', tr) /\
    scores_of tr = scenario_scores_A ++ scenario_scores_B /\
    Forall (fun ev => raised ev = None) tr /\
    (a == sum scenario_scores_A / 3)%Q /\ (a == 6 # 10)%Q /\
    (b == sum scenario_scores_B / 3)%Q /\ (b == 5 # 10)%Q.
Proof.
  do 4 eexists. split; [lazy; reflexivity |].
  split; [reflexivity |].
  split; [repeat constructor |].
  repeat split; reflexivity.
Qed.

(** C1 as stated fails: in the scenario the reported values are not the
    threshold accuracies 2/3 and 1. *)
Lemma scenario_not_threshold_accuracy :
  exists a b w' tr,
    run_benchmark (S := scripted) notebook_text [strategy_A; strategy_B]
      VectorDB.ASTRA scenario
    = (Return [(ChunkingMethod.value strategy_A, a);
               (ChunkingMethod.value strategy_B, b)], w', tr) /\
    scores_of tr = scenario_scores_A ++ scenario_scores_B /\
    (threshold_accuracy (5 # 10) scenario_scores_A == 2 # 3)%Q /\
    (threshold_accuracy (5 # 10) scenario_scores_B == 1)%Q /\
    ~ (a == 2 # 3)%Q /\ ~ (b == 1)%Q.
Proof.
  do 4 eexists. split; [lazy; reflexivity |].
  split; [reflexivity |].
  repeat split; try reflexivity; intros H; discriminate H.
Qed.

(** ** Division by zero *)

(** C2 as stated fails: with no score the aggregation line raises
    [ZeroDivisionError], and a run whose question list is empty ends with
    that exception instead of a table. *)
Lemma empty_scores_divide_by_zero :
  mean_score [] = Raise ZeroDivisionError /\
  questions_generated
    (snd (run_benchmark (S := scripted) notebook_text [strategy_A]
            VectorDB.ASTRA no_questions))
  = [Return []] /\
  fst (fst (run_benchmark (S := scripted) notebook_text [strategy_A]
              VectorDB.ASTRA no_questions))
  = Raise ZeroDivisionError.
Proof. repeat split; vm_compute; reflexivity. Qed.

(** ** Retrieval and the saved chunks *)

(** C4 as stated fails: in the notebook's run over two strategies both chunk
    lists are saved into the same database, and retrieval returns a chunk
    that no strategy produced. *)
Lemma retrieval_not_from_strategy_chunks :
  let tr := snd (run_benchmark (S := notebook) notebook_text
                   [strategy_A; strategy_B] VectorDB.ASTRA []) in
  indexes_written tr = [VectorDB.ASTRA; VectorDB.ASTRA] /\
  In "relevant chunk 1" (chunks_retrieved tr) /\
  ~ In "relevant chunk 1" (concat (chunk_sets_saved tr)).
Proof.
  vm_compute. repeat split; auto.
  intros H. repeat (destruct H as [H | H]; [discriminate H |]). exact H.
Qed.

(** ** The question generator *)

(** C5, as the code has it: for every document, requested count and world,
    the question generator returns the same three pairwise distinct,
    non-empty question strings and never raises, whatever the count. *)
Theorem generate_questions_fixed_three (text : string) (num_questions : Z)
  (w : list string) :
  exists questions,
    generate_questions (Services := notebook) text num_questions w
    = (Return questions, w) /\
    questions = ["Question 1?"; "Question 2?"; "Question 3?"] /\
    NoDup questions /\
    Forall (fun question => question <> "") questions /\
    length questions = 3%nat.
Proof.
  eexists. split; [reflexivity |]. split; [reflexivity |].
  split; [| split; [repeat constructor; discriminate | reflexivity]].
  repeat constructor; simpl; intros H;
    repeat (destruct H as [H | H]; [discriminate H |]); exact H.
Qed.

(** C5 as stated fails: asked for 10 questions the generator returns, without
    raising, a list of 3. *)
Lemma generate_questions_fewer_than_requested :
  exists questions,
    generate_questions (Services := notebook) notebook_text 10 []
    = (Return questions, []) /\
    (len questions < 10)%Z.
Proof. eexists. split; [reflexivity | reflexivity]. Qed.

(** ** A failing step *)

(** C6 as stated fails: when the grader raises on the second question of the
    first strategy, the run ends with that exception and no table; the third
    question and the second strategy are never evaluated. *)
Lemma grading_failure_not_recorded :
  let run := run_benchmark (S := scripted) notebook_text
               [strategy_A; strategy_B] VectorDB.ASTRA grading_fails in
  fst (fst run) = Raise (Exception "GradingError") /\
  questions_asked (snd run) = ["Question 1?"; "Question 2?"] /\
  scores_of (snd run) = [9 # 10].
Proof. vm_compute. auto. Qed.

(** ** Chunking *)

(** C7, as the code has it: for every document and strategy the chunk
    sequence is non-empty; it is the same three literal chunks whatever the
    document contains. *)
Theorem chunk_text_nonempty (text : string) (method : ChunkingMethod.t)
  (w : list string) :
  exists chunks,
    chunk_text (Services := notebook) text method w = (Return chunks, w) /\
    chunks <> [] /\
    chunks = ["chunk1"; "chunk2"; "chunk3"].
Proof.
  eexists. split; [reflexivity |]. split; [discriminate | reflexivity].
Qed.

(** C7 as stated fails: for the notebook's own document the concatenated
    chunks do not contain the document, and the chunk ["chunk1"] does not
    occur in it. *)
Lemma chunks_not_from_document :
  exists chunks,
    chunk_text (Services := notebook) notebook_text ChunkingMethod.CUSTOM []
    = (Return chunks, []) /\
    occurs_in notebook_text (String.concat "" chunks) = false /\
    In "chunk1" chunks /\
    occurs_in "chunk1" notebook_text = false.
Proof.
  eexists. split; [reflexivity |]. repeat split; simpl; auto.
Qed.

(** ** The output table *)


(** ** The chunker ignores its arguments *)

Lemma notebook_chunk_and_save (text : string)
  (methods : list ChunkingMethod.t) (db : VectorDB.t) (w : list string) :
  exists w' tr,
    chunk_and_save (S := notebook) text methods db w = (Return tt, w', tr) /\
    chunk_sets_saved tr
    = repeat ["chunk1"; "chunk2"; "chunk3"] (length methods).
Proof.
  revert w. induction methods as [| method rest IH]; intros w.
  - exists w, []. split; reflexivity.
  - simpl chunk_and_save. unfold bind, await. simpl.
    match goal with
    | |- context [chunk_and_save text rest db ?w1] =>
        destruct (IH w1) as (w' & tr & -> & Htr)
    end.
    do 2 eexists. split; [reflexivity |].
    simpl. rewrite Htr. reflexivity.
Qed.

(** C10: the notebook's [chunk_text] returns the same chunk list for every
    method (and every text), so in every run the chunk lists saved for the
    strategies are all that one list. *)
Theorem chunk_text_ignores_method :
  (forall (text text' : string) (m1 m2 : ChunkingMethod.t) (w : list string),
     chunk_text (Services := notebook) text m1 w
     = chunk_text (Services := notebook) text' m2 w) /\
  (forall (text : string) (methods : list ChunkingMethod.t) (db : VectorDB.t)
          (w : list string),
     chunk_sets_saved (snd (run_benchmark (S := notebook) text methods db w))
     = repeat ["chunk1"; "chunk2"; "chunk3"] (length methods)).
Proof.
  split; [reflexivity |].
  intros text methods db w. unfold run_benchmark.
  destruct (notebook_chunk_and_save text methods db w) as (w1 & t1 & H1 & Ht1).
  unfold bind at 1. rewrite H1.
  destruct (bind _ _ w1) as [[r w2] t2] eqn:H2. simpl snd.
  rewrite chunk_sets_saved_app, Ht1.
  apply bind_inv in H2.
  destruct H2 as [(e & H2 & _) | (qs & w3 & t3 & t4 & H2 & H3 & ->)].
  - apply await_inv in H2 as (_ & ->). simpl. apply app_nil_r.
  - apply await_inv in H2 as (_ & ->).
    apply evaluate_methods_emits in H3.
    assert (He : Forall (fun ev => evaluation_event ev = true) t4).
    { eapply Forall_impl; [| exact H3]. simpl. intros ev [Hev _]. exact Hev. }
    apply Forall_evaluation_no_generation in He as (_ & _ & He).
    simpl. rewrite He. apply app_nil_r.
Qed.

(** * Further properties of the driver *)

Lemma count_events_app (p : event -> bool) (t1 t2 : trace) :
  count_events p (t1 ++ t2) = (count_events p t1 + count_events p t2)%nat.
Proof. unfold count_events. rewrite filter_app. apply length_app. Qed.

Lemma count_events_none (p q : event -> bool) (tr : trace) :
  (forall ev, q ev = true -> p ev = false) ->
  Forall (fun ev => q ev = true) tr -> count_events p tr = 0%nat.
Proof.
  intros Hpq. unfold count_events.
  induction 1 as [| ev tr Hev _ IH]; simpl; [reflexivity |].
  rewrite (Hpq ev Hev). exact IH.
Qed.

(** ** How many calls a run makes *)

Section CallCounts.
Context {W : Type} {S : Services W}.

Lemma chunk_and_save_counts (text : string) (methods : list ChunkingMethod.t)
  (db : VectorDB.t) (w w' : W) (u : unit) (tr : trace) :
  chunk_and_save text methods db w = (Return u, w', tr) ->
  count_events is_chunk_text tr = length methods /\
  count_events is_save_chunks tr = length methods.
Proof.
  revert w tr. induction methods as [| method rest IH]; intros w tr; simpl.
  - intros H. apply ret_inv in H as (_ & _ & ->). auto.
  - intros H.
    apply bind_Return_inv in H as (chunks & w1 & t1 & t2 & H1 & H & ->).
    apply bind_Return_inv in H as (u2 & w2 & t3 & t4 & H2 & H & ->).
    apply await_inv in H1 as (_ & ->). apply await_inv in H2 as (_ & ->).
    apply IH in H as (IH1 & IH2).
    rewrite !count_events_app, IH1, IH2. auto.
Qed.

Lemma evaluate_questions_counts (questions : list string) (db : VectorDB.t)
  (method_scores scores : list Q) (w w' : W) (tr : trace) :
  evaluate_questions questions db method_scores w = (Return scores, w', tr) ->
  count_events is_retrieve tr = length questions /\
  count_events is_generate_answer tr = length questions /\
  count_events is_evaluate_answer tr = length questions.
Proof.
  revert method_scores w tr.
  induction questions as [| question rest IH]; intros method_scores w tr; simpl.
  - intros H. apply ret_inv in H as (_ & _ & ->). auto.
  - intros H.
    apply bind_Return_inv in H as (chunks & w1 & t1 & t2 & H1 & H & ->).
    apply bind_Return_inv in H as (answer & w2 & t3 & t4 & H2 & H & ->).
    apply bind_Return_inv in H as (score & w3 & t5 & t6 & H3 & H & ->).
    apply await_inv in H1 as (_ & ->). apply await_inv in H2 as (_ & ->).
    apply await_inv in H3 as (_ & ->).
    apply IH in H as (IH1 & IH2 & IH3).
    rewrite !count_events_app, IH1, IH2, IH3. auto.
Qed.

Lemma evaluate_methods_counts (methods : list ChunkingMethod.t)
  (questions : list string) (db : VectorDB.t) (results results' : dict)
  (w w' : W) (tr : trace) :
  evaluate_methods methods questions db results w = (Return results', w', tr) ->
  count_events is_retrieve tr = (length methods * length questions)%nat /\
  count_events is_generate_answer tr
  = (length methods * length questions)%nat /\
  count_events is_evaluate_answer tr
  = (length methods * length questions)%nat.
Proof.
  revert results w tr.
  induction methods as [| method rest IH]; intros results w tr; simpl.
  - intros H. apply ret_inv in H as (_ & _ & ->). auto.
  - intros H.
    apply bind_Return_inv in H as (scores & w1 & t1 & t2 & H1 & H & ->).
    apply bind_Return_inv in H as (average & w2 & t3 & t4 & H2 & H & ->).
    apply lift_inv in H2 as (_ & -> & ->).
    apply evaluate_questions_counts in H1 as (C1 & C2 & C3).
    apply IH in H as (IH1 & IH2 & IH3).
    rewrite !count_events_app, C1, C2, C3, IH1, IH2, IH3. auto.
Qed.

End CallCounts.

(** X1: a run that returns has called [chunk_text] and
    [save_chunks_to_vector_db] once per method, [generate_questions] once,
    and retrieval, answer generation and grading each once per method and
    generated question. *)
Theorem run_call_counts {W : Type} {S : Services W}
  (text : string) (methods : list ChunkingMethod.t) (db : VectorDB.t)
  (w w' : W) (results : dict) (tr : trace) :
  run_benchmark text methods db w = (Return results, w', tr) ->
  exists questions,
    questions_generated tr = [Return questions] /\
    count_events is_chunk_text tr = length methods /\
    count_events is_save_chunks tr = length methods /\
    count_events is_generate_questions tr = 1%nat /\
    count_events is_retrieve tr = (length methods * length questions)%nat /\
    count_events is_generate_answer tr
    = (length methods * length questions)%nat /\
    count_events is_evaluate_answer tr
    = (length methods * length questions)%nat.
Proof.
  unfold run_benchmark. intros H.
  apply bind_Return_inv in H as (u & w1 & t1 & t2 & H1 & H & ->).
  apply bind_Return_inv in H as (questions & w2 & t3 & t4 & H2 & H & ->).
  apply await_inv in H2 as (_ & ->).
  pose proof (chunk_and_save_emits _ _ _ _ _ _ _ H1) as Hc.
  assert (Hc' : Forall (fun ev => chunking_event ev = true) t1).
  { eapply Forall_impl; [| exact Hc]. simpl. intros ev [Hev _]. exact Hev. }
  pose proof (evaluate_methods_emits _ _ _ _ _ _ _ _ H) as He.
  assert (He' : Forall (fun ev => evaluation_event ev = true) t4).
  { eapply Forall_impl; [| exact He]. simpl. intros ev [Hev _]. exact Hev. }
  apply chunk_and_save_counts in H1 as (C1 & C2).
  apply evaluate_methods_counts in H as (C3 & C4 & C5).
  destruct (Forall_chunking_no_questions _ Hc') as (G1 & _).
  destruct (Forall_evaluation_no_generation _ He') as (G2 & _).
  exists questions.
  rewrite !questions_generated_app, !count_events_app, G1, G2, C1, C2, C3, C4,
    C5.
  rewrite (count_events_none is_chunk_text evaluation_event t4),
    (count_events_none is_save_chunks evaluation_event t4),
    (count_events_none is_generate_questions evaluation_event t4),
    (count_events_none is_generate_questions chunking_event t1),
    (count_events_none is_retrieve chunking_event t1),
    (count_events_none is_generate_answer chunking_event t1),
    (count_events_none is_evaluate_answer chunking_event t1);
    try assumption; try (intros [] Hev; try discriminate Hev; reflexivity).
  simpl. repeat split; auto; lia.
Qed.

Lemma run_call_counts_witness :
  let tr := snd (run_benchmark (S := notebook) notebook_text
                   [strategy_A; strategy_B] VectorDB.ASTRA []) in
  exists questions,
    questions_generated tr = [Return questions] /\
    count_events is_chunk_text tr = length [strategy_A; strategy_B] /\
    count_events is_save_chunks tr = length [strategy_A; strategy_B] /\
    count_events is_generate_questions tr = 1%nat /\
    count_events is_retrieve tr
    = (length [strategy_A; strategy_B] * length questions)%nat /\
    count_events is_generate_answer tr
    = (length [strategy_A; strategy_B] * length questions)%nat /\
    count_events is_evaluate_answer tr
    = (length [strategy_A; strategy_B] * length questions)%nat.
Proof.
  intros tr.
  apply (run_call_counts (S := notebook) notebook_text
           [strategy_A; strategy_B] VectorDB.ASTRA []
           ["Saving 3 chunks to astra"; "Saving 3 chunks to astra"]
           [("unstructured", 2550000 # 3000000); ("ai21", 2550000 # 3000000)]
           tr).
  vm_compute. reflexivity.
Defined.

(** ** What is passed from call to call *)

Section DataFlow.
Context {W : Type} {S : Services W}.

Lemma evaluate_questions_rounds (questions : list string) (db : VectorDB.t)
  (method_scores : list Q) (w w' : W) (r : outcome (list Q)) (tr : trace) :
  evaluate_questions questions db method_scores w = (r, w', tr) ->
  exists rounds, tr = concat rounds /\ Forall (round db) rounds.
Proof.
  revert method_scores w tr.
  induction questions as [| question rest IH]; intros method_scores w tr; simpl.
  - intros H. apply ret_inv in H as (_ & _ & ->). exists []. auto.
  - intros H. apply bind_inv in H.
    destruct H as [(e & H & _) | (chunks & w1 & t1 & t2 & H1 & H & ->)].
    { apply await_inv in H as (_ & ->).
      exists [[EvRetrieve question db default_top_k (Raise e)]].
      split; [reflexivity | repeat constructor]. }
    apply await_inv in H1 as (_ & ->). apply bind_inv in H.
    destruct H as [(e & H & _) | (answer & w2 & t3 & t4 & H2 & H & ->)].
    { apply await_inv in H as (_ & ->).
      exists [[EvRetrieve question db default_top_k (Return chunks);
               EvGenerateAnswer question chunks (Raise e)]].
      split; [reflexivity | repeat constructor]. }
    apply await_inv in H2 as (_ & ->). apply bind_inv in H.
    destruct H as [(e & H & _) | (score & w3 & t5 & t6 & H3 & H & ->)].
    { apply await_inv in H as (_ & ->).
      exists [[EvRetrieve question db default_top_k (Return chunks);
               EvGenerateAnswer question chunks (Return answer);
               EvEvaluateAnswer answer "correct_answer" (Raise e)]].
      split; [reflexivity | repeat constructor]. }
    apply await_inv in H3 as (_ & ->).
    apply IH in H as (rounds & -> & Hall).
    exists ([EvRetrieve question db default_top_k (Return chunks);
             EvGenerateAnswer question chunks (Return answer);
             EvEvaluateAnswer answer "correct_answer" (Return score)]
            :: rounds).
    split; [reflexivity | constructor; [constructor | exact Hall]].
Qed.

Lemma evaluate_methods_rounds (methods : list ChunkingMethod.t)
  (questions : list string) (db : VectorDB.t) (results : dict)
  (w w' : W) (r : outcome dict) (tr : trace) :
  evaluate_methods methods questions db results w = (r, w', tr) ->
  exists rounds, tr = concat rounds /\ Forall (round db) rounds.
Proof.
  revert results w tr.
  induction methods as [| method rest IH]; intros results w tr; simpl.
  - intros H. apply ret_inv in H as (_ & _ & ->). exists []. auto.
  - intros H. apply bind_inv in H.
    destruct H as [(e & H & _) | (scores & w1 & t1 & t2 & H1 & H & ->)].
    { eapply evaluate_questions_rounds. exact H. }
    apply evaluate_questions_rounds in H1 as (rounds1 & -> & Hall1).
    apply bind_inv in H.
    destruct H as [(e & H & _) | (average & w2 & t3 & t4 & H2 & H & ->)].
    { apply lift_inv in H as (_ & _ & ->). exists rounds1.
      rewrite app_nil_r. auto. }
    apply lift_inv in H2 as (_ & _ & ->).
    apply IH in H as (rounds2 & -> & Hall2).
    exists (rounds1 ++ rounds2). rewrite concat_app. split; [reflexivity |].
    apply Forall_app. auto.
Qed.

End DataFlow.

(** X2: in every run [chunk_text] is called on the run's text with the
    methods in the order given (up to the point where an exception ends the
    run), and every chunk list saved to the vector database is the list the
    matching [chunk_text] call returned; a run that returns has chunked
    under every method and saved every list produced. *)
Theorem chunks_saved_as_produced {W : Type} {S : Services W}
  (text : string) (methods : list ChunkingMethod.t) (db : VectorDB.t)
  (w w' : W) (r : outcome dict) (tr : trace) :
  run_benchmark text methods db w = (r, w', tr) ->
  (exists rest, map (pair text) methods = chunk_calls tr ++ rest) /\
  (exists rest, chunks_produced tr = chunk_sets_saved tr ++ rest) /\
  (forall results, r = Return results ->
     chunk_calls tr = map (pair text) methods /\
     chunk_sets_saved tr = chunks_produced tr).
Proof.
  intros H. apply run_benchmark_split in H.
  destruct H as (r1 & w1 & t1 & t2 & H1 & -> & Hn & _ & Hret).
  apply Forall_not_chunking in Hn as (N1 & N2 & N3 & _).
  apply chunk_and_save_flow in H1 as (F1 & F2 & F3).
  rewrite chunk_calls_app, chunks_produced_app, chunk_sets_saved_app, N1, N2,
    N3, !app_nil_r.
  split; [exact F1 |]. split; [exact F2 |].
  intros results Hr. apply (F3 tt). eauto.
Qed.

Lemma chunks_saved_as_produced_witness :
  let tr := snd (run_benchmark (S := notebook) notebook_text
                   [strategy_A; strategy_B] VectorDB.ASTRA []) in
  (exists rest,
     map (pair notebook_text) [strategy_A; strategy_B]
     = chunk_calls tr ++ rest) /\
  (exists rest, chunks_produced tr = chunk_sets_saved tr ++ rest) /\
  (forall results,
     fst (fst (run_benchmark (S := notebook) notebook_text
                 [strategy_A; strategy_B] VectorDB.ASTRA []))
     = Return results ->
     chunk_calls tr = map (pair notebook_text) [strategy_A; strategy_B] /\
     chunk_sets_saved tr = chunks_produced tr).
Proof.
  intros tr.
  apply (chunks_saved_as_produced (S := notebook) notebook_text
           [strategy_A; strategy_B] VectorDB.ASTRA []
           ["Saving 3 chunks to astra"; "Saving 3 chunks to astra"]).
  vm_compute. reflexivity.
Defined.

(** X3: in every run the evaluation calls come in rounds, one per question
    asked: a retrieval on the run's vector database with [top_k] 3, then
    answer generation from that question and exactly the chunks the
    retrieval returned, then grading of exactly the answer generated,
    against the literal ["correct_answer"]; a round stops at the call that
    raises. *)
Theorem evaluation_in_rounds {W : Type} {S : Services W}
  (text : string) (methods : list ChunkingMethod.t) (db : VectorDB.t)
  (w w' : W) (r : outcome dict) (tr : trace) :
  run_benchmark text methods db w = (r, w', tr) ->
  exists before rounds,
    tr = before ++ concat rounds /\
    Forall (fun ev => evaluation_event ev = false) before /\
    Forall (round db) rounds.
Proof.
  unfold run_benchmark. intros H. apply bind_inv in H.
  assert (Hce : forall t, Forall (fun ev => chunking_event ev = true /\
                                            targets db ev) t ->
                          Forall (fun ev => evaluation_event ev = false) t).
  { intros t Ht. eapply Forall_impl; [| exact Ht]. simpl. intros ev [Hev _].
    destruct ev; try discriminate Hev; reflexivity. }
  destruct H as [(e & H & _) | (u & w1 & t1 & t2 & H1 & H & ->)].
  { apply chunk_and_save_emits in H. exists tr, []. simpl.
    rewrite app_nil_r. auto. }
  apply chunk_and_save_emits in H1. apply bind_inv in H.
  destruct H as [(e & H & _) | (questions & w2 & t3 & t4 & H2 & H & ->)].
  - apply await_inv in H as (_ & ->).
    exists (t1 ++ [EvGenerateQuestions text 10 (Raise e)]), []. simpl.
    rewrite app_nil_r. repeat split; auto.
    apply Forall_app. split; [auto | repeat constructor].
  - apply await_inv in H2 as (_ & ->).
    apply evaluate_methods_rounds in H as (rounds & -> & Hall).
    exists (t1 ++ [EvGenerateQuestions text 10 (Return questions)]), rounds.
    rewrite <- app_assoc. repeat split; auto.
    apply Forall_app. split; [auto | repeat constructor].
Qed.

Lemma evaluation_in_rounds_witness :
  exists before rounds,
    snd (run_benchmark (S := scripted) notebook_text
           [strategy_A; strategy_B] VectorDB.ASTRA grading_fails)
    = before ++ concat rounds /\
    Forall (fun ev => evaluation_event ev = false) before /\
    Forall (round VectorDB.ASTRA) rounds.
Proof.
  apply (evaluation_in_rounds (S := scripted) notebook_text
           [strategy_A; strategy_B] VectorDB.ASTRA grading_fails
           (snd (fst (run_benchmark (S := scripted) notebook_text
                        [strategy_A; strategy_B] VectorDB.ASTRA
                        grading_fails)))
           (fst (fst (run_benchmark (S := scripted) notebook_text
                        [strategy_A; strategy_B] VectorDB.ASTRA
                        grading_fails)))).
  vm_compute. reflexivity.
Defined.

(** ** When a run raises *)

Section Raising.
Context {W : Type} {S : Services W}.





Lemma evaluate_methods_no_questions (methods : list ChunkingMethod.t)
  (db : VectorDB.t) (results : dict) (w : W) :
  methods <> [] ->
  evaluate_methods methods [] db results w = (Raise ZeroDivisionError, w, []).
Proof. destruct methods as [| method rest]; [congruence | reflexivity]. Qed.

End Raising.

(** X4: when the question generator returns an empty list and at least one
    method is given, the run raises [ZeroDivisionError] and returns no table;
    it does so before any retrieval, answer generation or grading. *)
Theorem no_questions_raises_zero_division {W : Type} {S : Services W}
  (text : string) (methods : list ChunkingMethod.t) (db : VectorDB.t)
  (w w' : W) (r : outcome dict) (tr : trace) :
  run_benchmark text methods db w = (r, w', tr) ->
  questions_generated tr = [Return []] ->
  methods <> [] ->
  r = Raise ZeroDivisionError /\
  Forall (fun ev => evaluation_event ev = false) tr /\
  Forall (fun ev => raised ev = None) tr.
Proof.
  unfold run_benchmark. intros H Hq Hm. apply bind_inv in H.
  destruct H as [(e & H & _) | (u & w1 & t1 & t2 & H1 & H & ->)].
  { exfalso. apply chunk_and_save_emits in H.
    assert (Hc : Forall (fun ev => chunking_event ev = true) tr).
    { eapply Forall_impl; [| exact H]. simpl. intros ev [Hev _]. exact Hev. }
    apply Forall_chunking_no_questions in Hc as (Hc & _).
    rewrite Hc in Hq. discriminate Hq. }
  pose proof (chunk_and_save_emits _ _ _ _ _ _ _ H1) as Hc.
  assert (Hc' : Forall (fun ev => chunking_event ev = true) t1).
  { eapply Forall_impl; [| exact Hc]. simpl. intros ev [Hev _]. exact Hev. }
  destruct (Forall_chunking_no_questions _ Hc') as (G1 & _).
  apply chunk_and_save_unwinds in H1.
  rewrite questions_generated_app, G1 in Hq. apply bind_inv in H.
  destruct H as [(e & H & _) | (questions & w2 & t3 & t4 & H2 & H & ->)].
  { exfalso. apply await_inv in H as (_ & ->). discriminate Hq. }
  apply await_inv in H2 as (_ & ->).
  pose proof (evaluate_methods_emits _ _ _ _ _ _ _ _ H) as He.
  assert (He' : Forall (fun ev => evaluation_event ev = true) t4).
  { eapply Forall_impl; [| exact He]. simpl. intros ev [Hev _]. exact Hev. }
  destruct (Forall_evaluation_no_generation _ He') as (G2 & _).
  rewrite questions_generated_app, G2 in Hq. simpl in Hq.
  injection Hq as ->.
  rewrite (evaluate_methods_no_questions methods db [] w2 Hm) in H.
  injection H as <- _ <-. split; [reflexivity |]. split.
  - apply Forall_app. split; [| repeat constructor].
    eapply Forall_impl; [| exact Hc']. simpl. intros ev Hev.
    destruct ev; try discriminate Hev; reflexivity.
  - apply Forall_app. split; [exact H1 | repeat constructor].
Qed.

Lemma no_questions_raises_zero_division_witness :
  let run := run_benchmark (S := scripted) notebook_text [strategy_A]
               VectorDB.ASTRA no_questions in
  fst (fst run) = Raise ZeroDivisionError /\
  Forall (fun ev => evaluation_event ev = false) (snd run) /\
  Forall (fun ev => raised ev = None) (snd run).
Proof.
  intros run.
  apply (no_questions_raises_zero_division (S := scripted) notebook_text
           [strategy_A] VectorDB.ASTRA no_questions (snd (fst run))).
  - vm_compute. reflexivity.
  - vm_compute. reflexivity.
  - discriminate.
Defined.



(** X6: when a [chunk_text] or [save_chunks_to_vector_db] call raises for any
    one method, the run raises that exception for all of them: no question
    is generated and nothing is retrieved or graded, also not for the
    methods already chunked and saved. *)
Theorem chunking_failure_aborts_all_methods {W : Type} {S : Services W}
  (text : string) (methods : list ChunkingMethod.t) (db : VectorDB.t)
  (w w' : W) (r : outcome dict) (tr : trace) (ev : event) (e : exn) :
  run_benchmark text methods db w = (r, w', tr) ->
  In ev tr -> chunking_event ev = true -> raised ev = Some e ->
  r = Raise e /\
  Forall (fun ev' => chunking_event ev' = true) tr /\
  questions_generated tr = [] /\ questions_asked tr = [] /\ scores_of tr = [].
Proof.
  intros H Hin Hc Hev. apply run_benchmark_split in H.
  destruct H as (r1 & w1 & t1 & t2 & H1 & -> & Hn & Hraise & _).
  pose proof (chunk_and_save_emits _ _ _ _ _ _ _ H1) as Hc1.
  assert (Hc1' : Forall (fun ev' => chunking_event ev' = true) t1).
  { eapply Forall_impl; [| exact Hc1]. simpl. intros ev' [H' _]. exact H'. }
  apply chunk_and_save_unwinds in H1.
  assert (Hnot2 : ~ In ev t2).
  { intros Hin2. rewrite Forall_forall in Hn. apply Hn in Hin2. congruence. }
  apply in_app_or in Hin. destruct Hin as [Hin | Hin]; [| contradiction].
  assert (Hno : forall l, Forall (fun ev' => raised ev' = None) l ->
                          In ev l -> False).
  { intros l Hl Hi. rewrite Forall_forall in Hl. apply Hl in Hi. congruence. }
  destruct r1 as [u | e1]; [exfalso; eauto |].
  destruct (Hraise e1 eq_refl) as (-> & ->). rewrite app_nil_r.
  destruct (Forall_chunking_no_questions _ Hc1') as (G1 & G2 & G3).
  repeat split; auto.
  destruct H1 as [(pre & ev' & -> & Hev' & Hpre) | (_ & Hall)].
  - apply in_app_or in Hin. destruct Hin as [Hin | [<- | []]].
    + exfalso. eauto.
    + congruence.
  - exfalso. eauto.
Qed.

Lemma chunking_failure_aborts_all_methods_witness :
  let failing : Services script :=
    {| chunk_text text method := fun w => (Raise (Exception "ChunkingError"), w);
       save_chunks_to_vector_db := save_chunks_to_vector_db (Services := scripted);
       generate_questions := generate_questions (Services := scripted);
       retrieve_relevant_chunks :=
         retrieve_relevant_chunks (Services := scripted);
       generate_answer := generate_answer (Services := scripted);
       evaluate_answer := evaluate_answer (Services := scripted) |} in
  let run := run_benchmark (S := failing) notebook_text
               [strategy_A; strategy_B] VectorDB.ASTRA (graded []) in
  fst (fst run) = Raise (Exception "ChunkingError") /\
  Forall (fun ev' => chunking_event ev' = true) (snd run) /\
  questions_generated (snd run) = [] /\ questions_asked (snd run) = [] /\
  scores_of (snd run) = [].
Proof.
  intros failing run.
  apply (chunking_failure_aborts_all_methods (S := failing) notebook_text
           [strategy_A; strategy_B] VectorDB.ASTRA (graded [])
           (snd (fst run)) (fst (fst run)) (snd run)
           (EvChunkText notebook_text strategy_A
              (Raise (Exception "ChunkingError")))).
  - vm_compute. reflexivity.
  - vm_compute. left. reflexivity.
  - reflexivity.
  - reflexivity.
Defined.

(** X7: when [generate_questions] raises, the run raises that exception
    after having chunked the text under every method and saved every chunk
    list; nothing is retrieved or graded. *)
Theorem question_generation_failure {W : Type} {S : Services W}
  (text : string) (methods : list ChunkingMethod.t) (db : VectorDB.t)
  (w w' : W) (r : outcome dict) (tr : trace) (e : exn) :
  run_benchmark text methods db w = (r, w', tr) ->
  questions_generated tr = [Raise e] ->
  r = Raise e /\
  chunk_calls tr = map (pair text) methods /\
  chunk_sets_saved tr = chunks_produced tr /\
  indexes_written tr = repeat db (length methods) /\
  Forall (fun ev => evaluation_event ev = false) tr.
Proof.
  unfold run_benchmark. intros H Hq. apply bind_inv in H.
  destruct H as [(e1 & H & _) | (u & w1 & t1 & t2 & H1 & H & ->)].
  { exfalso. apply chunk_and_save_emits in H.
    assert (Hc : Forall (fun ev => chunking_event ev = true) tr).
    { eapply Forall_impl; [| exact H]. simpl. intros ev [Hev _]. exact Hev. }
    apply Forall_chunking_no_questions in Hc as (Hc & _).
    rewrite Hc in Hq. discriminate Hq. }
  pose proof (chunk_and_save_emits _ _ _ _ _ _ _ H1) as Hc.
  assert (Hc' : Forall (fun ev => chunking_event ev = true) t1).
  { eapply Forall_impl; [| exact Hc]. simpl. intros ev [Hev _]. exact Hev. }
  destruct (Forall_chunking_no_questions _ Hc') as (G1 & _).
  pose proof (chunk_and_save_flow _ _ _ _ _ _ _ H1) as (_ & _ & Hflow).
  destruct (Hflow u eq_refl) as (F1 & F2).
  apply chunk_and_save_Return in H1 as (Hw & _).
  rewrite questions_generated_app, G1 in Hq. apply bind_inv in H.
  destruct H as [(e1 & H & ->) | (questions & w2 & t3 & t4 & H2 & H & ->)].
  - apply await_inv in H as (_ & ->). simpl in Hq. injection Hq as ->.
    rewrite chunk_calls_app, chunk_sets_saved_app, chunks_produced_app,
      indexes_written_app. simpl. rewrite !app_nil_r.
    repeat split; auto.
    apply Forall_app. split; [| repeat constructor].
    eapply Forall_impl; [| exact Hc']. simpl. intros ev Hev.
    destruct ev; try discriminate Hev; reflexivity.
  - exfalso. apply await_inv in H2 as (_ & ->).
    pose proof (evaluate_methods_emits _ _ _ _ _ _ _ _ H) as He.
    assert (He' : Forall (fun ev => evaluation_event ev = true) t4).
    { eapply Forall_impl; [| exact He]. simpl. intros ev [Hev _]. exact Hev. }
    destruct (Forall_evaluation_no_generation _ He') as (G2 & _).
    rewrite questions_generated_app, G2 in Hq. discriminate Hq.
Qed.

Lemma question_generation_failure_witness :
  let w := {| stdout := [];
              question_replies := [Raise (Exception "InsufficientQuestions")];
              retrieval_replies := []; answer_replies := [];
              grading_replies := [] |} in
  let run := run_benchmark (S := scripted) notebook_text
               [strategy_A; strategy_B] VectorDB.ASTRA w in
  fst (fst run) = Raise (Exception "InsufficientQuestions") /\
  chunk_calls (snd run) = map (pair notebook_text) [strategy_A; strategy_B] /\
  chunk_sets_saved (snd run) = chunks_produced (snd run) /\
  indexes_written (snd run)
  = repeat VectorDB.ASTRA (length [strategy_A; strategy_B]) /\
  Forall (fun ev => evaluation_event ev = false) (snd run).
Proof.
  intros w run.
  apply (question_generation_failure (S := scripted) notebook_text
           [strategy_A; strategy_B] VectorDB.ASTRA w (snd (fst run))).
  - vm_compute. reflexivity.
  - vm_compute. reflexivity.
Defined.

(** X8: with an empty method list the run makes exactly one call, to
    [generate_questions] on the text with 10, and returns the empty table
    when that call returns (raising its exception otherwise). *)
Theorem no_methods_still_generates_questions {W : Type} {S : Services W}
  (text : string) (db : VectorDB.t) (w : W) :
  run_benchmark text [] db w
  = (match fst (generate_questions text 10 w) with
     | Return _ => Return []
     | Raise e => Raise e
     end,
     snd (generate_questions text 10 w),
     [EvGenerateQuestions text 10 (fst (generate_questions text 10 w))]).
Proof.
  unfold run_benchmark. simpl. unfold bind, ret, await. simpl.
  destruct (generate_questions text 10 w) as [[questions | e] w1]; reflexivity.
Qed.

(** ** The table's keys and rows *)

Lemma value_injective (m1 m2 : ChunkingMethod.t) :
  ChunkingMethod.value m1 = ChunkingMethod.value m2 -> m1 = m2.
Proof. destruct m1, m2; simpl; intros H; try reflexivity; discriminate H. Qed.

Lemma dict_get_set_same (results : dict) (k : string) (v : Q) :
  dict_get (dict_set results k v) k = Some v.
Proof.
  induction results as [| [k0 v0] rest IH]; simpl.
  - rewrite String.eqb_refl. reflexivity.
  - destruct (String.eqb_spec k0 k) as [-> | Hne]; simpl.
    + rewrite String.eqb_refl. reflexivity.
    + destruct (String.eqb_spec k0 k) as [E | _]; [contradiction | exact IH].
Qed.

Lemma dict_get_set_other (results : dict) (k k' : string) (v : Q) :
  k <> k' -> dict_get (dict_set results k v) k' = dict_get results k'.
Proof.
  intros Hne. induction results as [| [k0 v0] rest IH]; simpl.
  - destruct (String.eqb_spec k k') as [E | _]; [contradiction | reflexivity].
  - destruct (String.eqb_spec k0 k) as [-> | Hne0]; simpl.
    + destruct (String.eqb_spec k k') as [E | _]; [contradiction | reflexivity].
    + rewrite IH. reflexivity.
Qed.





Lemma record_averages_get_other (entries : list (ChunkingMethod.t * trace))
  (results : dict) (k : string) :
  ~ In k (map (fun entry => ChunkingMethod.value (fst entry)) entries) ->
  dict_get (record_averages results entries) k = dict_get results k.
Proof.
  unfold record_averages. revert results.
  induction entries as [| entry rest IH]; intros results Hk; simpl;
    [reflexivity |].
  rewrite IH by (intros Hin; apply Hk; right; exact Hin).
  apply dict_get_set_other. intros E. apply Hk. left. exact E.
Qed.

Lemma record_averages_get_last (earlier later : list (ChunkingMethod.t * trace))
  (method : ChunkingMethod.t) (block : trace) (results : dict) :
  ~ In method (map fst later) ->
  dict_get (record_averages results (earlier ++ (method, block) :: later))
           (ChunkingMethod.value method)
  = Some (block_average block).
Proof.
  intros Hlast. unfold record_averages. rewrite fold_left_app. simpl.
  fold (record_averages
          (dict_set (fold_left
                       (fun results entry =>
                          dict_set results (ChunkingMethod.value (fst entry))
                                   (block_average (snd entry)))
                       earlier results)
                    (ChunkingMethod.value method) (block_average block))
          later).
  rewrite record_averages_get_other.
  - apply dict_get_set_same.
  - intros Hin. apply in_map_iff in Hin as ([m b] & Hv & Hin). simpl in Hv.
    apply value_injective in Hv. subst m. apply Hlast.
    apply (in_map fst) in Hin. exact Hin.
Qed.




(** X10: when a method is listed more than once it is evaluated each time:
    the evaluation events of a run that returns split into one block per
    listed method, in order, each block made of evaluation events only,
    asking every generated question and holding one score per question; and
    the table holds under a method's id the average of the block of that
    method's last occurrence. *)
Theorem repeated_method_keeps_last_average {W : Type} {S : Services W}
  (text : string) (methods : list ChunkingMethod.t) (db : VectorDB.t)
  (w w' : W) (results : dict) (tr : trace) :
  run_benchmark text methods db w = (Return results, w', tr) ->
  exists chunking questions blocks,
    tr = chunking ++ EvGenerateQuestions text 10 (Return questions)
                  :: concat blocks /\
    Forall (fun ev => chunking_event ev = true) chunking /\
    length blocks = length methods /\
    Forall (fun block =>
              Forall (fun ev => evaluation_event ev = true) block /\
              questions_asked block = questions /\
              length (scores_of block) = length questions /\
              scores_of block <> []) blocks /\
    forall earlier method block later,
      combine methods blocks = earlier ++ (method, block) :: later ->
      ~ In method (map fst later) ->
      dict_get results (ChunkingMethod.value method)
      = Some (block_average block).
Proof.
  intros H. apply run_benchmark_Return in H.
  destruct H as (chunking & questions & blocks & -> & Hc & _ & He & Hlen
                 & Hall & ->).
  exists chunking, questions, blocks.
  split; [reflexivity |]. split; [exact Hc |]. split; [exact Hlen |]. split.
  - apply Forall_concat_blocks in He. rewrite Forall_forall in *.
    intros block Hin. split; [apply He | apply Hall]; exact Hin.
  - intros earlier method block later -> Hlast.
    apply record_averages_get_last. exact Hlast.
Qed.

Lemma repeated_method_keeps_last_average_witness :
  let run := run_benchmark (S := scripted) notebook_text
               [strategy_A; strategy_A] VectorDB.ASTRA scenario in
  exists chunking questions blocks,
    snd run = chunking ++ EvGenerateQuestions notebook_text 10
                            (Return questions) :: concat blocks /\
    Forall (fun ev => chunking_event ev = true) chunking /\
    length blocks = length [strategy_A; strategy_A] /\
    Forall (fun block =>
              Forall (fun ev => evaluation_event ev = true) block /\
              questions_asked block = questions /\
              length (scores_of block) = length questions /\
              scores_of block <> []) blocks /\
    forall earlier method block later,
      combine [strategy_A; strategy_A] blocks
      = earlier ++ (method, block) :: later ->
      ~ In method (map fst later) ->
      dict_get [("unstructured", 1500 # 3000)] (ChunkingMethod.value method)
      = Some (block_average block).
Proof.
  intros run.
  apply (repeated_method_keeps_last_average (S := scripted) notebook_text
           [strategy_A; strategy_A] VectorDB.ASTRA scenario (snd (fst run))).
  vm_compute. reflexivity.
Defined.

(** ** The notebook's placeholders under the driver *)

Lemma bind_Return_eq {W A B : Type} (m : task W A) (f : A -> task W B)
  (w w1 w2 : W) (a : A) (r : outcome B) (t1 t2 : trace) :
  m w = (Return a, w1, t1) -> f a w1 = (r, w2, t2) ->
  bind m f w = (r, w2, t1 ++ t2).
Proof. intros Hm Hf. unfold bind. rewrite Hm, Hf. reflexivity. Qed.

Lemma notebook_chunk_and_save_stdout (text : string)
  (methods : list ChunkingMethod.t) (db : VectorDB.t) (w : list string) :
  exists tr,
    chunk_and_save (S := notebook) text methods db w
    = (Return tt,
       w ++ repeat ("Saving 3 chunks to " ++ VectorDB.value db)%string
                   (length methods),
       tr).
Proof.
  revert w. induction methods as [| method rest IH]; intros w.
  - exists []. simpl. rewrite app_nil_r. reflexivity.
  - simpl chunk_and_save. unfold bind, await. simpl.
    match goal with
    | |- context [chunk_and_save text rest db ?w1] =>
        destruct (IH w1) as (tr & ->)
    end.
    eexists. rewrite <- app_assoc. reflexivity.
Qed.

Lemma notebook_evaluate_methods (methods : list ChunkingMethod.t)
  (db : VectorDB.t) (results : dict) (w : list string) :
  Forall (fun kv : string * Q => (snd kv == 85 # 100)%Q) results ->
  exists results' tr,
    evaluate_methods (S := notebook) methods
      ["Question 1?"; "Question 2?"; "Question 3?"] db results w
    = (Return results', w, tr) /\
    Forall (fun kv : string * Q => (snd kv == 85 # 100)%Q) results'.
Proof.
  revert results. induction methods as [| method rest IH]; intros results Hr.
  - exists results, []. split; [reflexivity | exact Hr].
  - simpl evaluate_methods. unfold bind, await, lift, ret. simpl.
    match goal with
    | |- context [evaluate_methods rest _ db ?results1 w] =>
        destruct (IH results1) as (results' & tr & -> & Hall)
    end.
    + apply (dict_set_values (fun v => (v == 85 # 100)%Q)); [| exact Hr].
      reflexivity.
    + do 2 eexists. split; [reflexivity | exact Hall].
Qed.

(** X11: with the notebook's placeholder bodies the run returns for every
    text, method list and vector database; it prints one line
    ["Saving 3 chunks to <db>"] per method and nothing else, no call raises,
    the table's keys are the ids of the methods given, and every reported
    score equals 0.85 (in exact arithmetic). *)
Theorem notebook_run_reports_placeholder_score (text : string)
  (methods : list ChunkingMethod.t) (db : VectorDB.t) (w : list string) :
  exists results tr,
    run_benchmark (S := notebook) text methods db w
    = (Return results,
       w ++ repeat ("Saving 3 chunks to " ++ VectorDB.value db)%string
                   (length methods),
       tr) /\
    Forall (fun ev => raised ev = None) tr /\
    (forall k, In k (map fst results) <->
               In k (map ChunkingMethod.value methods)) /\
    Forall (fun kv : string * Q => (snd kv == 85 # 100)%Q) results.
Proof.
  destruct (notebook_chunk_and_save_stdout text methods db w) as (t1 & H1).
  destruct (notebook_evaluate_methods methods db []
              (w ++ repeat ("Saving 3 chunks to " ++ VectorDB.value db)%string
                           (length methods)))
    as (results & t2 & H2 & Hall); [constructor |].
  assert (Hrun : run_benchmark (S := notebook) text methods db w
                 = (Return results,
                    w ++ repeat ("Saving 3 chunks to "
                                 ++ VectorDB.value db)%string
                                (length methods),
                    t1 ++ [EvGenerateQuestions text 10
                             (Return ["Question 1?"; "Question 2?";
                                      "Question 3?"])] ++ t2)).
  { unfold run_benchmark.
    eapply bind_Return_eq; [exact H1 |].
    eapply bind_Return_eq; [reflexivity | exact H2]. }
  do 2 eexists. split; [exact Hrun |].
  split; [apply (run_benchmark_unwinds _ _ _ _ _ _ _ Hrun) |].
  split; [| exact Hall].
  apply run_benchmark_Return in Hrun.
  destruct Hrun as (chunking & questions & blocks & _ & _ & _ & _ & Hlen
                    & _ & ->).
  intros k. rewrite record_averages_keys, map_value_combine by exact Hlen.
  simpl. intuition.
Qed.
